(** * Shape validation and resource checking of the end-to-end test helpers

    A shallow embedding of [config/helpers.js] ([validateApiData],
    [validateResources], [closeBrowserContextSafely], ...) and of the two
    scenarios of [tests/website-analysis-and-resource-validation.spec.js]
    that the properties below talk about. *)

From Stdlib Require Import ZArith String Ascii List Lia.
From stdpp Require Import base list strings gmap pretty.

Local Open Scope string_scope.
Local Open Scope Z_scope.
Local Open Scope list_scope.

(** ** JavaScript values *)

Module Js.

(** The values a decoded JSON payload (and the literals of the helpers) can
    hold, plus [undefined], which is what reading an absent property gives.
    Numbers are the integer-valued ones: the helpers only ever look at
    [typeof] a number, at its truthiness and at whether it is [200].
    A string is a sequence of UTF-16 code units; the ones modelled here are
    those whose code units are all below 256, one [ascii] per code unit.
    An object is its property list in insertion order. *)
#[warnings="-register-all"]
Inductive Value : Type :=
| VUndefined
| VNull
| VBool (b : bool)
| VNum (n : Z)
| VStr (s : string)
| VArr (elems : list Value)
| VObj (props : list (string * Value)).

(** The faults the helpers raise on such values are [TypeError]s
    (destructuring [null]/[undefined], calling something that is not a
    function, reading a property of [null]); [HostFault] stands for a fault
    raised by an external collaborator (browser, file system, audit
    engine). *)
Inductive Error : Type := TypeError | HostFault.

Inductive Completion (A : Type) : Type :=
| Normal (a : A)
| Throw (e : Error).
Arguments Normal {A} a.
Arguments Throw {A} e.

Definition bind {A B} (c : Completion A) (k : A -> Completion B) : Completion B :=
  match c with
  | Normal a => k a
  | Throw e => Throw e
  end.

Notation "'let!' x ':=' c 'in' k" := (bind c (fun x => k))
  (at level 10, x name, c at level 100, k at level 200).

(** [typeof v] *)
Definition typeof (v : Value) : string :=
  match v with
  | VUndefined => "undefined"
  | VNull => "object"
  | VBool _ => "boolean"
  | VNum _ => "number"
  | VStr _ => "string"
  | VArr _ => "object"
  | VObj _ => "object"
  end.

(** [ToBoolean], which is what [!v], [a && b] and [Boolean(v)] apply. *)
Definition toBoolean (v : Value) : bool :=
  match v with
  | VUndefined => false
  | VNull => false
  | VBool b => b
  | VNum n => negb (n =? 0)
  | VStr s => negb (String.eqb s "")
  | VArr _ => true
  | VObj _ => true
  end.

(** [a && b] on values: the left operand when it is falsy, else the right. *)
Definition and_then (a b : Value) : Value :=
  if toBoolean a then b else a.

(** [v === "lit"] for a string literal. *)
Definition strictEqStr (v : Value) (lit : string) : bool :=
  match v with
  | VStr s => String.eqb s lit
  | _ => false
  end.

(** [v === n] for a number literal. *)
Definition strictEqNum (v : Value) (lit : Z) : bool :=
  match v with
  | VNum n => n =? lit
  | _ => false
  end.

(** The binding of [key] in a property list. *)
Fixpoint lookupProp (key : string) (props : list (string * Value)) : option Value :=
  match props with
  | [] => None
  | (k, v) :: rest => if String.eqb k key then Some v else lookupProp key rest
  end.

(** [item.key], for the keys the helpers read ([userId], [title], [body],
    [name]): none of them is a property of a prototype, so on anything but
    an object with that own property the read gives [undefined]; on
    [null] and [undefined] it is a [TypeError]. *)
Definition getField (item : Value) (key : string) : Completion Value :=
  match item with
  | VUndefined | VNull => Throw TypeError
  | VObj props => Normal (default VUndefined (lookupProp key props))
  | _ => Normal VUndefined
  end.

(** White space and line terminators of ECMAScript among the code units
    below 256: TAB, LF, VT, FF, CR, SP and NBSP. *)
Definition isWhiteSpace (c : ascii) : bool :=
  let n := N_of_ascii c in
  ((n =? 9) || (n =? 10) || (n =? 11) || (n =? 12) || (n =? 13)
   || (n =? 32) || (n =? 160))%N.

Fixpoint trimStart (s : string) : string :=
  match s with
  | EmptyString => EmptyString
  | String c s' => if isWhiteSpace c then trimStart s' else s
  end.

Fixpoint trimEnd (s : string) : string :=
  match s with
  | EmptyString => EmptyString
  | String c s' =>
      match trimEnd s' with
      | EmptyString => if isWhiteSpace c then EmptyString else String c EmptyString
      | t => String c t
      end
  end.

(** [String.prototype.trim] *)
Definition trim (s : string) : string := trimEnd (trimStart s).

(** [x?.trim()]: [undefined] when [x] is nullish, the trimmed string when
    [x] is a string; any other value has no callable [trim], so the call
    raises. *)
Definition optTrim (x : Value) : Completion Value :=
  match x with
  | VUndefined | VNull => Normal VUndefined
  | VStr s => Normal (VStr (trim s))
  | _ => Throw TypeError
  end.

(** [!x?.trim()] *)
Definition notOptTrim (x : Value) : Completion bool :=
  let! t := optTrim x in
  Normal (negb (toBoolean t)).

(** [Array.prototype.forEach] with a callback that updates a captured
    variable of type [S] and may raise: elements are visited in order with
    their zero-based index, and a fault stops the loop. *)
Fixpoint forEachFrom {S : Type} (f : Value -> nat -> S -> Completion S)
    (items : list Value) (index : nat) (st : S) : Completion S :=
  match items with
  | [] => Normal st
  | item :: rest =>
      let! st' := f item index st in
      forEachFrom f rest (Datatypes.S index) st'
  end.

Definition forEach {S : Type} (f : Value -> nat -> S -> Completion S)
    (items : list Value) (st : S) : Completion S :=
  forEachFrom f items 0%nat st.

End Js.

Import Js.

(** ** [validateApiData] *)

Module ApiValidator.

(** [typeof userId !== "number"] *)
Definition userIdNotNumber (userId : Value) : bool :=
  negb (String.eqb (typeof userId) "number").

(** The condition of the "Posts" branch,
    [typeof userId !== "number" || !title?.trim() || !body?.trim()],
    evaluated left to right with short circuit. *)
Definition postsCondition (userId title body : Value) : Completion bool :=
  if userIdNotNumber userId then Normal true
  else
    let! t := notOptTrim title in
    if t then Normal true else notOptTrim body.

(** The array literal of the "Posts" entry's [reason], before
    [.filter(Boolean)]. *)
Definition postsReasonSlots (userId title body : Value) : Completion (list Value) :=
  let r1 := and_then (VBool (userIdNotNumber userId)) (VStr "userId is not a number") in
  let! t := notOptTrim title in
  let r2 := and_then (VBool t) (VStr "title is empty") in
  let! b := notOptTrim body in
  let r3 := and_then (VBool b) (VStr "body is empty") in
  Normal [r1; r2; r3].

Definition postsEntry (index : nat) (userId title body : Value) : Completion Value :=
  let! slots := postsReasonSlots userId title body in
  Normal (VObj [ ("index", VNum (Z.of_nat index));
                 ("userId", userId);
                 ("title", title);
                 ("body", body);
                 ("reason", VArr (List.filter toBoolean slots)) ]).

Definition usersEntry (index : nat) (userName : Value) : Value :=
  VObj [ ("index", VNum (Z.of_nat index));
         ("userName", userName);
         ("reason", VArr [VStr "name is empty"]) ].

(** The body of the callback passed to [data.forEach]; [invalidEntries] is
    the array it pushes to. *)
Definition callback (name : Value) (item : Value) (index : nat)
    (invalidEntries : list Value) : Completion (list Value) :=
  let! userId := getField item "userId" in
  let! title := getField item "title" in
  let! body := getField item "body" in
  let! userName := getField item "name" in
  let! invalidEntries :=
    (if strictEqStr name "Posts" then
       let! c := postsCondition userId title body in
       if c then
         let! e := postsEntry index userId title body in
         Normal (invalidEntries ++ [e])
       else Normal invalidEntries
     else Normal invalidEntries) in
  if strictEqStr name "Users" then
    let! c := notOptTrim userName in
    if c then Normal (invalidEntries ++ [usersEntry index userName])
    else Normal invalidEntries
  else Normal invalidEntries.

Definition validateApiData (data : list Value) (name : Value) : Completion (list Value) :=
  forEach (callback name) data [].

End ApiValidator.

(** ** [validateResources] and the inline copy of its loop *)

Module Response.
(** What [page.goto] resolves to when there is a response; [status] is the
    accessor [response.status()], a pure read of the HTTP status code. *)
Record t : Type := { status : Z }.
End Response.

Module ResourceValidator.

(** What [await page.goto(resource)] does: it raises, or it resolves to a
    response or to [null]. *)
Inductive Navigation : Type :=
| Rejects
| Resolves (response : option Response.t).

(** The object literal [{ resource, status }]. *)
Record Entry : Type := { resource : string; status : Value }.

(** [try { body } catch (err) { handler }] around a body that yields the
    next value of [brokenResources]. *)
Definition tryCatch {A} (body : Completion A) (handler : Error -> A) : A :=
  match body with
  | Normal a => a
  | Throw e => handler e
  end.

Definition awaitNavigation (nav : Navigation) : Completion (option Response.t) :=
  match nav with
  | Rejects => Throw HostFault
  | Resolves response => Normal response
  end.

(** [response] as a condition: [null] is falsy, a response object truthy. *)
Definition isSome (response : option Response.t) : bool :=
  match response with
  | Some _ => true
  | None => false
  end.

(** [response.status()] on what [goto] resolved to: a [TypeError] on
    [null]. *)
Definition callStatus (response : option Response.t) : Completion Z :=
  match response with
  | Some r => Normal (Response.status r)
  | None => Throw TypeError
  end.

(** [response ? response.status() : "No Response"] *)
Definition statusOrNoResponse (response : option Response.t) : Value :=
  match response with
  | Some r => VNum (Response.status r)
  | None => VStr "No Response"
  end.

Section Loop.

(** The navigation capability: a page whose state [goto] changes. *)
Context {Page : Type}.
Variable goto : Page -> string -> Navigation * Page.

(** The [try] block of [validateResources] (helpers.js), given what the
    navigation did:
    [if (!response || response.status() !== 200) push(...)]. *)
Definition helperTry (nav : Navigation) (res : string)
    (brokenResources : list Entry) : Completion (list Entry) :=
  let! response := awaitNavigation nav in
  let! broken :=
    (if negb (isSome response) then Normal true
     else let! code := callStatus response in Normal (negb (code =? 200))) in
  if broken then
    Normal (brokenResources
              ++ [{| resource := res; status := statusOrNoResponse response |}])
  else Normal brokenResources.

(** The [try] block of the inline loop of the second test file:
    [if (response.status() !== 200) push(...)], with no test of
    [response] first. *)
Definition inlineTry (nav : Navigation) (res : string)
    (brokenResources : list Entry) : Completion (list Entry) :=
  let! response := awaitNavigation nav in
  let! code := callStatus response in
  if negb (code =? 200) then
    Normal (brokenResources
              ++ [{| resource := res; status := statusOrNoResponse response |}])
  else Normal brokenResources.

(** [catch (err) { brokenResources.push({ resource, status: "Error" }) }] *)
Definition onFault (res : string) (brokenResources : list Entry)
    (err : Error) : list Entry :=
  brokenResources ++ [{| resource := res; status := VStr "Error" |}].

(** [for (const resource of resources) { try ... catch ... }] *)
Fixpoint loop (tryBlock : Navigation -> string -> list Entry -> Completion (list Entry))
    (page : Page) (resources : list string) (brokenResources : list Entry)
    : list Entry * Page :=
  match resources with
  | [] => (brokenResources, page)
  | res :: rest =>
      let '(nav, page') := goto page res in
      loop tryBlock page' rest
        (tryCatch (tryBlock nav res brokenResources) (onFault res brokenResources))
  end.

Definition validateResources (page : Page) (resources : list string)
    : list Entry * Page :=
  loop helperTry page resources [].

Definition inlineValidation (page : Page) (resources : list string)
    : list Entry * Page :=
  loop inlineTry page resources [].

(** The ResourceCheckResult of one navigation, as the data model words
    it: the HTTP status code when a response was obtained, and otherwise
    one of the two sentinel strings. *)
Definition checkResult (res : string) (nav : Navigation) : Entry :=
  {| resource := res;
     status := match nav with
               | Rejects => VStr "Error"
               | Resolves None => VStr "No Response"
               | Resolves (Some r) => VNum (Response.status r)
               end |}.

(** The navigations the loop performs, one per URL, each from the page
    state the previous one left. *)
Fixpoint navigations (page : Page) (resources : list string)
    : list (string * Navigation) :=
  match resources with
  | [] => []
  | res :: rest =>
      let '(nav, page') := goto page res in
      (res, nav) :: navigations page' rest
  end.

(** The per-URL check results, one per input URL, in input order. *)
Definition checkResults (page : Page) (resources : list string) : list Entry :=
  map (fun rn => checkResult (fst rn) (snd rn)) (navigations page resources).

(** The page state after the loop went through [resources]. *)
Definition pageAfter (page : Page) (resources : list string) : Page :=
  fold_left (fun p res => snd (goto p res)) resources page.

End Loop.

(** [status == 200] on a check result. *)
Definition isOk (e : Entry) : bool := strictEqNum (status e) 200.


(** What one round of the helper's loop appends. *)
Definition recorded (res : string) (nav : Navigation) : list Entry :=
  match nav with
  | Rejects => [{| resource := res; status := VStr "Error" |}]
  | Resolves None => [{| resource := res; status := VStr "No Response" |}]
  | Resolves (Some r) =>
      if Response.status r =? 200 then []
      else [{| resource := res; status := VNum (Response.status r) |}]
  end.

(** What one round of the inline loop appends. *)
Definition recordedInline (res : string) (nav : Navigation) : list Entry :=
  match nav with
  | Rejects => [{| resource := res; status := VStr "Error" |}]
  | Resolves None => [{| resource := res; status := VStr "Error" |}]
  | Resolves (Some r) =>
      if Response.status r =? 200 then []
      else [{| resource := res; status := VNum (Response.status r) |}]
  end.

(** A navigation capability that always resolves to [null], on a page
    without state. *)
Definition alwaysNull (page : unit) (url : string) : Navigation * unit :=
  (Resolves None, tt).

End ResourceValidator.

(** ** The audit scenario *)

Module AuditScenario.

(** The calls the scenario makes to its external collaborators. *)
Inductive Call : Type :=
| ImportLighthouse
| LaunchPersistentContext
| ExistsSync
| MkdirSync
| RunLighthouse
| WriteFileSync
| Attach (label : string)
| ContextClose
| ConsoleError.

(** A call that was made, and whether it returned ([true]) or raised. *)
Inductive Event : Type := Ev (c : Call) (returned : bool).

(** The audit result [lhr]: each of the four categories, when present,
    with its [score]. Only the presence of a category matters to the
    control flow; the scores are carried as integers. *)
Record Lhr : Type := {
  performance : option Z;
  seo : option Z;
  accessibility : option Z;
  bestPractices : option Z
}.

(** What the external collaborators do in one run of the scenario. *)
Record World : Type := {
  importLighthouse : Completion unit;
  launchPersistentContext : Completion unit;
  existsSync : bool;
  mkdirSync : Completion unit;
  lighthouse : Completion Lhr;
  writeFileSync : Completion unit;
  contextClose : Completion unit
}.

(** Computations that make calls: the trace of calls so far is threaded
    through, and is kept when a fault is raised. *)
Definition Run (A : Type) : Type := list Event -> Completion A * list Event.

Definition ret {A} (a : A) : Run A := fun tr => (Normal a, tr).

Definition raise {A} (e : Error) : Run A := fun tr => (Throw e, tr).

Definition andThen {A B} (m : Run A) (k : A -> Run B) : Run B :=
  fun tr =>
    match m tr with
    | (Normal a, tr') => k a tr'
    | (Throw e, tr') => (Throw e, tr')
    end.

Notation "'run!' x ':=' c 'in' k" := (andThen c (fun x => k))
  (at level 10, x name, c at level 100, k at level 200).
Notation "c ';;;' k" := (andThen c (fun _ => k))
  (at level 100, k at level 200, right associativity).

Definition returned {A} (c : Completion A) : bool :=
  match c with Normal _ => true | Throw _ => false end.

(** Making [c], whose outcome in this run is [outcome]. *)
Definition call {A} (c : Call) (outcome : Completion A) : Run A :=
  fun tr => (outcome, tr ++ [Ev c (returned outcome)]).

(** [try { body } catch (error) { handler }] *)
Definition tryCatch {A} (body : Run A) (handler : Error -> Run A) : Run A :=
  fun tr =>
    match body tr with
    | (Normal a, tr') => (Normal a, tr')
    | (Throw e, tr') => handler e tr'
    end.

(** [try { body } finally { finalizer }]: the finalizer runs on both exits
    of the body, and the body's completion stands unless the finalizer
    itself raises. *)
Definition tryFinally {A} (body : Run A) (finalizer : Run unit) : Run A :=
  fun tr =>
    let '(c, tr') := body tr in
    match finalizer tr' with
    | (Normal _, tr'') => (c, tr'')
    | (Throw e, tr'') => (Throw e, tr'')
    end.

Section Scenario.

Variable w : World.

(** [ensureDirectoryExists] (helpers.js) *)
Definition ensureDirectoryExists : Run unit :=
  run! present := call ExistsSync (Normal (existsSync w)) in
  if negb present then call MkdirSync (mkdirSync w) else ret tt.

(** [testInfo.attach(label, ...)]: registers the attachment. *)
Definition attach (label : string) : Run unit :=
  call (Attach label) (Normal tt).

(** [saveReport] (helpers.js) *)
Definition saveReport (label : string) : Run unit :=
  call WriteFileSync (writeFileSync w) ;;;
  attach label.

(** [closeBrowserContextSafely] (helpers.js) *)
Definition closeBrowserContextSafely : Run unit :=
  tryCatch (call ContextClose (contextClose w))
           (fun error => call ConsoleError (Normal tt)).

(** [extractLighthouseScores] (helpers.js): reading [.score] of an absent
    category is a [TypeError]. *)
Definition extractLighthouseScores (lhr : Lhr) : Completion (Z * Z * Z * Z) :=
  let score (c : option Z) : Completion Z :=
    match c with Some s => Normal (s * 100) | None => Throw TypeError end in
  let! p := score (performance lhr) in
  let! s := score (seo lhr) in
  let! a := score (accessibility lhr) in
  let! b := score (bestPractices lhr) in
  Normal (p, s, a, b).

(** The [try] block of the step. *)
Definition auditTry : Run unit :=
  run! lhr := call RunLighthouse (lighthouse w) in
  saveReport "Lighthouse Report" ;;;
  attach "Lighthouse Report" ;;;
  (fun tr => (let! _ := extractLighthouseScores lhr in Normal tt, tr)) ;;;
  attach "Lighthouse Scores".

(** The [catch] block of the step. *)
Definition auditCatch (error : Error) : Run unit :=
  attach "Lighthouse Error" ;;;
  raise error.

(** The test "should analyze performance, SEO, accessibility, and best
    practices" of the first test file. *)
Definition auditScenario : Run unit :=
  call ImportLighthouse (importLighthouse w) ;;;
  call LaunchPersistentContext (launchPersistentContext w) ;;;
  ensureDirectoryExists ;;;
  tryFinally (tryCatch auditTry auditCatch) closeBrowserContextSafely.

End Scenario.

(** The calls of a run of the scenario, from an empty trace. *)
Definition traceOf (w : World) : list Event := snd (auditScenario w []).

Definition isLaunched (e : Event) : bool :=
  match e with Ev LaunchPersistentContext true => true | _ => false end.

Definition isClose (e : Event) : bool :=
  match e with Ev ContextClose _ => true | _ => false end.

(** Every launch that returned a context is followed by a call of the
    context's [close]. *)
Fixpoint closedAfterLaunch (tr : list Event) : bool :=
  match tr with
  | [] => true
  | e :: rest =>
      (if isLaunched e then existsb isClose rest else true)
      && closedAfterLaunch rest
  end.

(** A run in which everything succeeds. *)
Definition allGood : World := {|
  importLighthouse := Normal tt;
  launchPersistentContext := Normal tt;
  existsSync := true;
  mkdirSync := Normal tt;
  lighthouse := Normal {| performance := Some 1; seo := Some 1;
                          accessibility := Some 1; bestPractices := Some 1 |};
  writeFileSync := Normal tt;
  contextClose := Normal tt
|}.

(** A run in which the reports directory is absent and [fs.mkdirSync]
    raises (no permission, or another worker created the directory in
    between), everything else being fine. *)
Definition mkdirFails : World := {|
  importLighthouse := Normal tt;
  launchPersistentContext := Normal tt;
  existsSync := false;
  mkdirSync := Throw HostFault;
  lighthouse := lighthouse allGood;
  writeFileSync := Normal tt;
  contextClose := Normal tt
|}.

(** The reports directory is there once [ensureDirectoryExists] is done. *)
Definition directoryEnsured (w : World) : bool :=
  existsSync w || returned (mkdirSync w).

End AuditScenario.

(** ** The vocabulary of the properties *)

Module Shape.

Import ApiValidator.

(** Blank, as the rules word it: the value is [null] or [undefined], or it
    is a string whose trimmed form is empty. *)
Definition Blank (v : Value) : Prop :=
  v = VUndefined \/ v = VNull \/ exists s, v = VStr s /\ trim s = "".

Definition isBlank (v : Value) : bool :=
  match v with
  | VUndefined | VNull => true
  | VStr s => String.eqb (trim s) ""
  | _ => false
  end.

(** A value a blank check can be made on: nullish, or a string. *)
Definition isText (v : Value) : bool :=
  match v with
  | VUndefined | VNull | VStr _ => true
  | _ => false
  end.

Definition Text (v : Value) : Prop :=
  v = VUndefined \/ v = VNull \/ exists s, v = VStr s.

Definition allWhiteSpace (s : string) : bool :=
  forallb isWhiteSpace (list_ascii_of_string s).

(** A value whose properties can be read. *)
Definition isNullish (v : Value) : bool :=
  match v with
  | VUndefined | VNull => true
  | _ => false
  end.

(** The value of field [key] of a record, [undefined] when absent. *)
Definition field (item : Value) (key : string) : Value :=
  match item with
  | VObj props => default VUndefined (lookupProp key props)
  | _ => VUndefined
  end.

(** Property [key] of an entry of the result. *)
Definition entryProp (e : Value) (key : string) : option Value :=
  match e with
  | VObj props => lookupProp key props
  | _ => None
  end.

(** The [index] of an entry, as a position. *)
Definition entryIndex (e : Value) : option nat :=
  match entryProp e "index" with
  | Some (VNum n) => if 0 <=? n then Some (Z.to_nat n) else None
  | _ => None
  end.

(** The descriptions of the sub-conditions of the "Posts" rule that a
    record violates, in the order of the rule. *)
Definition postsReasons (item : Value) : list Value :=
  (if userIdNotNumber (field item "userId") then [VStr "userId is not a number"] else [])
  ++ (if isBlank (field item "title") then [VStr "title is empty"] else [])
  ++ (if isBlank (field item "body") then [VStr "body is empty"] else []).

(** A record violates the rule of its label. *)
Definition violates (name : Value) (item : Value) : bool :=
  if strictEqStr name "Posts" then
    userIdNotNumber (field item "userId")
    || isBlank (field item "title") || isBlank (field item "body")
  else if strictEqStr name "Users" then isBlank (field item "name")
  else false.

(** The entry logged for the record [item] at position [index]. *)
Definition entryOf (name : Value) (index : nat) (item : Value) : Value :=
  if strictEqStr name "Posts" then
    VObj [ ("index", VNum (Z.of_nat index));
           ("userId", field item "userId");
           ("title", field item "title");
           ("body", field item "body");
           ("reason", VArr (postsReasons item)) ]
  else
    VObj [ ("index", VNum (Z.of_nat index));
           ("userName", field item "name");
           ("reason", VArr [VStr "name is empty"]) ].

Definition verdict (name : Value) (index : nat) (item : Value) : option Value :=
  if violates name item then Some (entryOf name index item) else None.

(** One entry per violating record, in the order of the records. *)
Definition invalidEntriesOf (name : Value) (data : list Value) : list Value :=
  omap id (imap (verdict name) data).

(** The entries of the records of [data], numbered from [n]. *)
Definition entriesFrom (name : Value) (n : nat) (data : list Value) : list Value :=
  omap id (imap (fun k => verdict name (n + k)) data).

(** [entryIndex e] is [i]. *)
Definition hasIndex (i : nat) (e : Value) : bool :=
  match entryIndex e with
  | Some k => Nat.eqb k i
  | None => false
  end.

(** The record can be checked under the label without a fault: its fields
    can be read, and the string fields the label's rule trims are nullish
    or strings. *)
Definition checkable (name : Value) (item : Value) : bool :=
  negb (isNullish item)
  && (if strictEqStr name "Posts" then
        isText (field item "title") && isText (field item "body")
      else if strictEqStr name "Users" then isText (field item "name")
      else true).

(** The fields the rule of a label checks. *)
Definition checkedFields (name : Value) : list string :=
  if strictEqStr name "Posts" then ["userId"; "title"; "body"]
  else if strictEqStr name "Users" then ["name"]
  else [].

(** An entry carries the checked fields of its record under the names they
    have in the record. *)
Definition keepsFieldNames (name : Value) (data : list Value) : Prop :=
  forall out, validateApiData data name = Normal out ->
  forall e, e ∈ out ->
  exists i item,
    entryIndex e = Some i /\ data !! i = Some item /\
    forall key, key ∈ checkedFields name -> entryProp e key = Some (field item key).

End Shape.

(** ** [collectResources] *)

Module Collector.

(** An element the selector
    [link[rel='stylesheet'], script[src], img[src]] matched, seen through
    the two properties the callback reads. On the HTML elements the
    selector matches, [el.src] and [el.href] are strings (the resolved URL,
    or the empty string) or [undefined], which is [None] here. *)
Record Element : Type := { src : option string; href : option string }.

(** [el.src || el.href] *)
Definition srcOrHref (el : Element) : option string :=
  match src el with
  | Some s => if String.eqb s "" then href el else Some s
  | None => href el
  end.

(** The test of [.filter((url) => url)]: a non-empty string. *)
Definition truthyUrl (url : option string) : bool :=
  match url with
  | Some s => negb (String.eqb s "")
  | None => false
  end.

(** [Array.from(matched, (el) => el.src || el.href).filter((url) => url)];
    what the filter keeps are strings. *)
Definition collectFrom (matched : list Element) : list string :=
  omap id (List.filter truthyUrl (map srcOrHref matched)).

(** [collectResources] (helpers.js): [evaluated] is what
    [page.evaluate] finds in the loaded document, the matched elements in
    document order, unless the evaluation raises. *)
Definition collectResources (evaluated : Completion (list Element))
    : Completion (list string) :=
  let! matched := evaluated in
  Normal (collectFrom matched).

End Collector.

(** ** Reports, and the steps of a test *)

Module Report.

(** What [testInfo.attach(label, { body | path, contentType })] registers. *)
Record Attachment : Type := {
  label : string;
  body : option string;
  path : option string;
  contentType : string
}.

(** What a step of a test can throw: a fault of the runtime or of an
    external collaborator, an [Error] object made with [new Error(message)],
    or the error of a failed [expect]. *)
Inductive Thrown : Type :=
| Native (e : Error)
| ErrorObject (message : string)
| ExpectationFailed.

Inductive Result (A : Type) : Type :=
| Returned (a : A)
| Raised (t : Thrown).
Arguments Returned {A} a.
Arguments Raised {A} t.

(** A step reads and changes a state of type [St]; the state is kept when
    the step raises. *)
Definition Step (St A : Type) : Type := St -> Result A * St.

Definition ret {St A} (a : A) : Step St A := fun st => (Returned a, st).

Definition raise {St A} (t : Thrown) : Step St A := fun st => (Raised t, st).

Definition andThen {St A B} (m : Step St A) (k : A -> Step St B) : Step St B :=
  fun st =>
    match m st with
    | (Returned a, st') => k a st'
    | (Raised t, st') => (Raised t, st')
    end.

Notation "'step!' x ':=' c 'in' k" := (andThen c (fun x => k))
  (at level 10, x name, c at level 100, k at level 200).
Notation "c '>>>' k" := (andThen c (fun _ => k))
  (at level 100, k at level 200, right associativity).

(** A computation on values, as a step. *)
Definition lift {St A} (c : Completion A) : Step St A :=
  fun st =>
    match c with
    | Normal a => (Returned a, st)
    | Throw e => (Raised (Native e), st)
    end.

(** [try { body } catch (error) { handler }] *)
Definition tryCatch {St A} (body : Step St A) (handler : Thrown -> Step St A)
    : Step St A :=
  fun st =>
    match body st with
    | (Returned a, st') => (Returned a, st')
    | (Raised t, st') => handler t st'
    end.

(** A call of an [async] function that is not awaited: what the function
    does before its first [await] happens, and its outcome is dropped. *)
Definition detached {St A} (m : Step St A) : Step St unit :=
  fun st => (Returned tt, snd (m st)).

(** [expect(list).toHaveLength(0, ...)] *)
Definition expectEmpty {St A} (l : list A) : Step St unit :=
  if (0 <? length l)%nat then raise ExpectationFailed else ret tt.

(** The text a number has in a template literal, for the integers. *)
Definition numberToString (n : Z) : string := pretty n.

Section Helpers.

(** [JSON.stringify(data, null, 2)] *)
Variable stringify : Value -> string.

(** [testInfo.attach] *)
Definition attach (a : Attachment) : Step (list Attachment) unit :=
  fun testInfo => (Returned tt, testInfo ++ [a]).

(** [attachToTestReport] (helpers.js); [contentType] is [None] when the
    argument is left out. *)
Definition attachToTestReport (label : string) (data : Value)
    (contentType : option string) : Step (list Attachment) unit :=
  attach {| label := label;
            body := Some (match data with
                          | VStr s => s
                          | _ => stringify data
                          end);
            path := None;
            contentType := default "application/json" contentType |}.

(** The response of [fetch]: its status code and what [response.json()]
    does. [response.ok] is true for the status codes from 200 to 299. *)
Record HttpResponse : Type := { status : Z; json : Completion Value }.

Definition ok (response : HttpResponse) : bool :=
  (200 <=? status response) && (status response <=? 299).

(** [fetchApiData] (helpers.js); [fetch] is what [await fetch(url)] does. *)
Definition fetchApiData (fetch : string -> Completion HttpResponse)
    (url : string) (label : string) : Step (list Attachment) Value :=
  step! response := lift (fetch url) in
  if negb (ok response) then
    let errorMsg :=
      "Failed to fetch data from " +:+ label +:+ ". Status: "
      +:+ numberToString (status response) in
    attach {| label := "Fetch Error"; body := Some errorMsg; path := None;
              contentType := "text/plain" |} >>>
    raise (ErrorObject errorMsg)
  else
    step! data := lift (json response) in
    attach {| label := "Fetched Data from " +:+ label;
              body := Some (stringify data); path := None;
              contentType := "application/json" |} >>>
    ret data.

(** The files written and the report of a test. *)
Record Store : Type := {
  files : gmap string string;
  dirs : list string;
  testInfo : list Attachment
}.

(** A step on the report, as a step on the store. *)
Definition onReport {A} (m : Step (list Attachment) A) : Step Store A :=
  fun st =>
    let '(r, testInfo') := m (testInfo st) in
    (r, {| files := files st; dirs := dirs st; testInfo := testInfo' |}).

(** [fs.writeFileSync(filePath, content)]; [outcome] tells whether the
    call raises in this run. *)
Definition writeFileSync (outcome : Completion unit) (filePath content : string)
    : Step Store unit :=
  fun st =>
    match outcome with
    | Normal _ =>
        (Returned tt,
         {| files := <[filePath := content]> (files st); dirs := dirs st;
            testInfo := testInfo st |})
    | Throw e => (Raised (Native e), st)
    end.

(** [testInfo.attach] of a file given by its path, called without
    [await]: the attachment is registered only once the file has been read,
    which is after the caller has gone on; the report is as it was when the
    call returns its promise. *)
Definition attachFileUnawaited (a : Attachment) : Step (list Attachment) unit :=
  fun testInfo => (Returned tt, testInfo).

(** [saveAndAttachLog] (helpers.js): the file is written, and the
    attachment of the file is started and not awaited. *)
Definition saveAndAttachLog (writeOutcome : Completion unit) (filePath : string)
    (data : Value) (label : string) : Step Store unit :=
  writeFileSync writeOutcome filePath (stringify data) >>>
  onReport (attachFileUnawaited
              {| label := label; body := None; path := Some filePath;
                 contentType := "application/json" |}).

(** [saveReport] (helpers.js) *)
Definition saveReport (writeOutcome : Completion unit) (filePath : string)
    (data : Value) (label : string) : Step Store unit :=
  writeFileSync writeOutcome filePath (stringify data) >>>
  onReport (attach {| label := label; body := Some (stringify data); path := None;
                      contentType := "application/json" |}).

(** [ensureDirectoryExists] (helpers.js); [present] is what
    [fs.existsSync] answers and [mkdirOutcome] what [fs.mkdirSync] does. *)
Definition ensureDirectoryExists (present : bool) (mkdirOutcome : Completion unit)
    (dirPath : string) : Step Store unit :=
  if negb present then
    fun st =>
      match mkdirOutcome with
      | Normal _ =>
          (Returned tt,
           {| files := files st; dirs := dirs st ++ [dirPath];
              testInfo := testInfo st |})
      | Throw e => (Raised (Native e), st)
      end
  else ret tt.

End Helpers.

End Report.

(** ** The record validation test *)

Module ApiScenario.

Import ApiValidator Report.

(** An element of [apiEndpoints]. *)
Record Endpoint : Type := { name : string; url : string }.

(** What the file system and the network do in one run of the test. *)
Record World : Type := {
  existsSync : bool;
  mkdirSync : Completion unit;
  fetch : string -> Completion HttpResponse;
  writeOutcome : Completion unit
}.

(** [validateApiData(data, name)] on what the response decoded to:
    [data.forEach] is a function only when [data] is an array. *)
Definition validate (data : Value) (label : string) : Completion (list Value) :=
  match data with
  | VArr items => validateApiData items (VStr label)
  | _ => Throw TypeError
  end.

(** The store a test starts from. *)
Definition emptyStore : Store := {| files := ∅; dirs := []; testInfo := [] |}.

Section Test.

(** [JSON.stringify(data, null, 2)], [path.resolve("./reports")],
    [path.join] and [String.prototype.toLowerCase]. *)
Variable stringify : Value -> string.
Variable reportsDir : string.
Variable pathJoin : string -> string -> string.
Variable toLowerCase : string -> string.

Variable w : World.

Definition logFilePath (ep : Endpoint) : string :=
  pathJoin reportsDir ("validation-log-" +:+ toLowerCase (name ep) +:+ ".json").

(** The test "Validate data from ... API" (api-validation.spec.js); the
    call of [ensureDirectoryExists] is not awaited. *)
Definition apiTest (ep : Endpoint) : Step Store unit :=
  detached (ensureDirectoryExists (existsSync w) (mkdirSync w) reportsDir) >>>
  step! data := onReport (fetchApiData stringify (fetch w) (url ep) (name ep)) in
  step! invalidEntries := lift (validate data (name ep)) in
  saveAndAttachLog stringify (writeOutcome w) (logFilePath ep) (VArr invalidEntries)
    ("Validation Log for " +:+ name ep) >>>
  expectEmpty invalidEntries.

End Test.

(** The directory step of the test does not raise. *)
Definition directoryReady (w : World) : bool :=
  existsSync w || AuditScenario.returned (mkdirSync w).

(** The attachment of the fetched data. *)
Definition fetchedAttachment (stringify : Value -> string) (ep : Endpoint)
    (data : Value) : Attachment :=
  {| label := "Fetched Data from " +:+ name ep; body := Some (stringify data);
     path := None; contentType := "application/json" |}.

(** The endpoint of the test file. *)
Definition posts : Endpoint :=
  {| name := "Posts"; url := "https://jsonplaceholder.typicode.com/posts" |}.

(** A network that answers every URL with the given status and body. *)
Definition answering (code : Z) (payload : Value) : World := {|
  existsSync := true;
  mkdirSync := Normal tt;
  fetch := fun _ => Normal {| status := code; json := Normal payload |};
  writeOutcome := Normal tt
|}.

(** Stand-ins for the library functions, for examples: a serializer that
    only tells arrays from the rest, the joining of a directory and a file
    name, and the lower-casing of the letters A to Z. *)
Definition sampleStringify (v : Value) : string :=
  match v with
  | VArr [] => "[]"
  | VArr _ => "[...]"
  | _ => "..."
  end.

Definition sampleJoin (dir file : string) : string := dir +:+ "/" +:+ file.

Definition lowerLetter (c : ascii) : ascii :=
  let n := N_of_ascii c in
  if ((65 <=? n) && (n <=? 90))%N then ascii_of_N (n + 32) else c.

Fixpoint sampleLower (s : string) : string :=
  match s with
  | EmptyString => EmptyString
  | String c s' => String (lowerLetter c) (sampleLower s')
  end.

End ApiScenario.

(** ** The resource validation test *)

Module ResourceScenario.

Import ResourceValidator Collector Report.

(** An entry of [brokenResources] as a value. *)
Definition entryValue (e : Entry) : Value :=
  VObj [("resource", VStr (resource e)); ("status", ResourceValidator.status e)].

Section Test.

Context {Page : Type}.

(** [JSON.stringify(data, null, 2)] and [error.message]. *)
Variable stringify : Value -> string.
Variable messageOf : Thrown -> string.

(** The page: [page.goto] and what [page.evaluate] finds in the document
    the page shows. *)
Variable goto : Page -> string -> Navigation * Page.
Variable evaluate : Page -> Completion (list Element).

(** A step on the report, as a step of the test. *)
Definition report {A} (m : Step (list Attachment) A) : Step (Page * list Attachment) A :=
  fun st =>
    let '(r, testInfo') := m (snd st) in
    (r, (fst st, testInfo')).

(** [await page.goto(url)] *)
Definition navigate (url : string) : Step (Page * list Attachment) (option Response.t) :=
  fun st =>
    let '(nav, page') := goto (fst st) url in
    lift (awaitNavigation nav) (page', snd st).

(** [await collectResources(page)] *)
Definition collect : Step (Page * list Attachment) (list string) :=
  fun st => lift (collectResources (evaluate (fst st))) st.

(** [await validateResources(page, resources)] *)
Definition validate (resources : list string) : Step (Page * list Attachment) (list Entry) :=
  fun st =>
    let '(brokenResources, page') := validateResources goto (fst st) resources in
    (Returned brokenResources, (page', snd st)).

Definition attachBroken (brokenResources : list Entry) : Step (Page * list Attachment) unit :=
  if (0 <? length brokenResources)%nat then
    report (attachToTestReport stringify "Broken Resources"
              (VArr (map entryValue brokenResources)) None)
  else ret tt.

(** The [try] block of the step. *)
Definition resourceTry (url : string) : Step (Page * list Attachment) unit :=
  navigate url >>>
  step! resources := collect in
  report (attachToTestReport stringify "Linked Resources"
            (VArr (map VStr resources)) None) >>>
  step! brokenResources := validate resources in
  attachBroken brokenResources >>>
  attachBroken brokenResources >>>
  expectEmpty brokenResources.

(** The [catch] block of the step. *)
Definition resourceCatch (error : Thrown) : Step (Page * list Attachment) unit :=
  report (attachToTestReport stringify "Validation Error"
            (VStr (messageOf error)) (Some "text/plain")) >>>
  raise error.

(** The test "Resource Validation: Check linked resources for errors" of
    the first test file. *)
Definition resourceTest (url : string) : Step (Page * list Attachment) unit :=
  tryCatch (resourceTry url) resourceCatch.

(** The test of the same name in the second test file, which has the
    collection and the loop inline and attaches through [testInfo.attach]. *)
Definition inlineCheck (resources : list string) : Step (Page * list Attachment) (list Entry) :=
  fun st =>
    let '(brokenResources, page') := inlineValidation goto (fst st) resources in
    (Returned brokenResources, (page', snd st)).

Definition inlineResourceTry (url : string) : Step (Page * list Attachment) unit :=
  navigate url >>>
  step! resources := collect in
  report (attach {| label := "Linked Resources";
                    body := Some (stringify (VArr (map VStr resources)));
                    path := None; contentType := "application/json" |}) >>>
  step! brokenResources := inlineCheck resources in
  (if (0 <? length brokenResources)%nat then
     report (attach {| label := "Broken Resources";
                       body := Some (stringify (VArr (map entryValue brokenResources)));
                       path := None; contentType := "application/json" |})
   else ret tt) >>>
  expectEmpty brokenResources.

Definition inlineResourceCatch (error : Thrown) : Step (Page * list Attachment) unit :=
  report (attach {| label := "Validation Error"; body := Some (messageOf error);
                    path := None; contentType := "text/plain" |}) >>>
  raise error.

Definition inlineResourceTest (url : string) : Step (Page * list Attachment) unit :=
  tryCatch (inlineResourceTry url) inlineResourceCatch.

(** The attachments of the test. *)
Definition linkedAttachment (resources : list string) : Attachment :=
  {| label := "Linked Resources";
     body := Some (stringify (VArr (map VStr resources)));
     path := None; contentType := "application/json" |}.

Definition brokenAttachment (brokenResources : list Entry) : Attachment :=
  {| label := "Broken Resources";
     body := Some (stringify (VArr (map entryValue brokenResources)));
     path := None; contentType := "application/json" |}.

Definition errorAttachment (error : Thrown) : Attachment :=
  {| label := "Validation Error"; body := Some (messageOf error);
     path := None; contentType := "text/plain" |}.

End Test.

(** A page with one stylesheet: loading the page itself answers 200, and
    the stylesheet answers the given status. *)
Definition styledPage (code : Z) (page : unit) (url : string) : Navigation * unit :=
  (Resolves (Some {| Response.status :=
                       if String.eqb url "https://example.test/" then 200 else code |}), tt).

Definition oneStylesheet (page : unit) : Completion (list Element) :=
  Normal [{| src := None; href := Some "https://example.test/a.css" |}].

(** Stand-ins for [error.message] and for the serializer, for examples. *)
Definition sampleMessage (t : Thrown) : string :=
  match t with
  | ErrorObject message => message
  | Native _ => "fault"
  | ExpectationFailed => "expectation failed"
  end.

Definition sampleStringifyValue (v : Value) : string :=
  match v with
  | VArr [] => "[]"
  | _ => "..."
  end.

End ResourceScenario.

(** ** The audit test of the second test file *)

Module InlineAudit.

Import AuditScenario.

(** The run [w] with another outcome for [browserContext.close()]. *)
Definition withClose (outcome : Completion unit) (w : World) : World := {|
  importLighthouse := importLighthouse w;
  launchPersistentContext := launchPersistentContext w;
  existsSync := existsSync w;
  mkdirSync := mkdirSync w;
  lighthouse := lighthouse w;
  writeFileSync := writeFileSync w;
  contextClose := outcome
|}.

Section Scenario.

Variable w : World.

(** The [try] block: the report is written with [fs.writeFileSync] and
    attached once, the scores are computed in place. *)
Definition inlineAuditTry : Run unit :=
  run! lhr := call RunLighthouse (lighthouse w) in
  call WriteFileSync (writeFileSync w) ;;;
  attach "Lighthouse Report" ;;;
  (fun tr => (let! _ := extractLighthouseScores lhr in Normal tt, tr)) ;;;
  attach "Lighthouse Scores".

(** The test: the directory step is inline, and the [finally] block
    awaits [browserContext.close()] itself. *)
Definition inlineAuditScenario : Run unit :=
  call ImportLighthouse (importLighthouse w) ;;;
  call LaunchPersistentContext (launchPersistentContext w) ;;;
  (run! present := call ExistsSync (Normal (existsSync w)) in
   if negb present then call MkdirSync (mkdirSync w) else ret tt) ;;;
  tryFinally (tryCatch inlineAuditTry auditCatch)
             (call ContextClose (contextClose w)).

End Scenario.

End InlineAudit.

(** ** More vocabulary for the resource loop *)

Module ResourceShape.

Import ResourceValidator.

(** The navigation resolved to a response with status 200. *)
Definition navigatedOk (nav : Navigation) : bool :=
  match nav with
  | Resolves (Some r) => Response.status r =? 200
  | _ => false
  end.

(** The navigation resolved to [null]. *)
Definition resolvedNull (nav : Navigation) : bool :=
  match nav with
  | Resolves None => true
  | _ => false
  end.

(** A capability that answers every URL with the given status code, on a
    page without state. *)
Definition alwaysStatus (code : Z) (page : unit) (url : string) : Navigation * unit :=
  (Resolves (Some {| Response.status := code |}), tt).

(** A capability on a page that counts its navigations: the first one is
    answered 404, the second 500 and every later one 200. *)
Definition byVisit (page : nat) (url : string) : Navigation * nat :=
  (Resolves (Some {| Response.status :=
                       match page with
                       | O => 404
                       | S O => 500
                       | S (S _) => 200
                       end |}), S page).

(** A capability on a page that counts its navigations: the first one is
    answered 200, every later one is rejected. *)
Definition onlyFirst (page : nat) (url : string) : Navigation * nat :=
  (match page with
   | O => Resolves (Some {| Response.status := 200 |})
   | S _ => Rejects
   end, S page).

End ResourceShape.

(** ** More vocabulary for the record validator and the audit *)

Module ApiShape.

Import Shape.

(** A string that does not trim to the empty string. *)
Definition nonBlankString (v : Value) : bool :=
  match v with
  | VStr s => negb (String.eqb (trim s) "")
  | _ => false
  end.

(** A record that passes the "Posts" rule: its [userId] is a number and
    its [title] and [body] are strings with something else than white
    space in them. *)
Definition validPost (item : Value) : bool :=
  negb (isNullish item)
  && String.eqb (typeof (field item "userId")) "number"
  && nonBlankString (field item "title")
  && nonBlankString (field item "body").

(** A record that passes the "Users" rule. *)
Definition validUser (item : Value) : bool :=
  negb (isNullish item) && nonBlankString (field item "name").

(** The [reason] array of an entry. *)
Definition reasonsOf (e : Value) : option (list Value) :=
  match entryProp e "reason" with
  | Some (VArr reason) => Some reason
  | _ => None
  end.

End ApiShape.

Module AuditShape.

Import AuditScenario.

(** The audit engine returned a result with all four categories. *)
Definition oracleComplete (w : World) : bool :=
  match lighthouse w with
  | Normal lhr =>
      match performance lhr, seo lhr, accessibility lhr, bestPractices lhr with
      | Some _, Some _, Some _, Some _ => true
      | _, _, _, _ => false
      end
  | Throw _ => false
  end.

(** The calls [closeBrowserContextSafely] makes. *)
Definition closeEvents (w : World) : list Event :=
  Ev ContextClose (returned (contextClose w))
  :: (if returned (contextClose w) then [] else [Ev ConsoleError true]).

(** The calls of the scenario before its [try] block, when they all
    return. *)
Definition setupEvents (w : World) : list Event :=
  [Ev ImportLighthouse true; Ev LaunchPersistentContext true; Ev ExistsSync true]
  ++ (if existsSync w then [] else [Ev MkdirSync true]).

(** The scenario gets as far as its [try] block. *)
Definition reachesTry (w : World) : bool :=
  returned (importLighthouse w) && returned (launchPersistentContext w)
  && directoryEnsured w.

Definition isErrorAttachment (e : Event) : bool :=
  match e with
  | Ev (Attach label) _ => String.eqb label "Lighthouse Error"
  | _ => false
  end.

(** A run in which the audit engine raises and closing the context raises
    too. *)
Definition oracleAndCloseFail : World := {|
  importLighthouse := Normal tt;
  launchPersistentContext := Normal tt;
  existsSync := false;
  mkdirSync := Normal tt;
  lighthouse := Throw HostFault;
  writeFileSync := Normal tt;
  contextClose := Throw HostFault
|}.

End AuditShape.

(** ** Facts about trimming *)

Module TrimFacts.

Import Shape.

Lemma trimStart_blank s : trimStart s = "" <-> allWhiteSpace s = true.
Proof.
  unfold allWhiteSpace. induction s as [|c s IH]; simpl.
  - tauto.
  - destruct (isWhiteSpace c); simpl; [exact IH | split; discriminate].
Qed.

Lemma trimEnd_blank s : trimEnd s = "" <-> allWhiteSpace s = true.
Proof.
  unfold allWhiteSpace. induction s as [|c s IH]; simpl.
  - tauto.
  - destruct (trimEnd s) eqn:E.
    + destruct (isWhiteSpace c); simpl.
      * split; [intros _; now apply IH | reflexivity].
      * split; discriminate.
    + split; [discriminate |].
      intros H. apply andb_true_iff in H as [_ H].
      apply IH in H. discriminate.
Qed.

Lemma allWhiteSpace_trimStart s : allWhiteSpace (trimStart s) = allWhiteSpace s.
Proof.
  unfold allWhiteSpace. induction s as [|c s IH]; simpl; [reflexivity|].
  destruct (isWhiteSpace c) eqn:E; simpl; [exact IH | now rewrite E].
Qed.

(** A string trims to the empty string exactly when all its characters
    are white space. *)
Lemma trim_blank s : trim s = "" <-> allWhiteSpace s = true.
Proof.
  unfold trim. rewrite trimEnd_blank, allWhiteSpace_trimStart. reflexivity.
Qed.

Lemma trimEnd_idempotent s : trimEnd (trimEnd s) = trimEnd s.
Proof.
  induction s as [|c s IH]; simpl; [reflexivity|].
  destruct (trimEnd s) as [|d t] eqn:E.
  - destruct (isWhiteSpace c) eqn:W; simpl; [reflexivity | now rewrite W].
  - change (match trimEnd (String d t) with
            | "" => if isWhiteSpace c then "" else String c ""
            | String a u => String c (String a u)
            end = String c (String d t)).
    rewrite IH. reflexivity.
Qed.

Lemma trimStart_trimEnd s :
  trimStart (trimEnd (trimStart s)) = trimEnd (trimStart s).
Proof.
  induction s as [|c s IH]; simpl; [reflexivity|].
  destruct (isWhiteSpace c) eqn:W; [exact IH|].
  simpl. rewrite W. destruct (trimEnd s); simpl; now rewrite W.
Qed.

(** Trimming what is already trimmed changes nothing. *)
Lemma trim_idempotent s : trim (trim s) = trim s.
Proof.
  unfold trim. rewrite trimStart_trimEnd. apply trimEnd_idempotent.
Qed.

Lemma isBlank_Blank v : isBlank v = true <-> Blank v.
Proof.
  unfold Blank. destruct v; simpl; split; intros H; try discriminate; auto;
    try (destruct H as [H | [H | (s' & H & _)]]; discriminate).
  - right. right. exists s. split; [reflexivity | now apply String.eqb_eq].
  - destruct H as [H | [H | (s' & H & Ht)]]; try discriminate.
    injection H as ->. now apply String.eqb_eq.
Qed.

Lemma isBlank_isText v : isBlank v = true -> isText v = true.
Proof. destruct v; simpl; intros; congruence. Qed.

(** [!x?.trim()] raises on what is neither nullish nor a string, and
    otherwise tells whether [x] is blank. *)
Lemma notOptTrim_spec v :
  notOptTrim v = if isText v then Normal (isBlank v) else Throw TypeError.
Proof.
  destruct v; simpl; try reflexivity.
  unfold notOptTrim; simpl. now rewrite negb_involutive.
Qed.

End TrimFacts.

(** ** The record validator as a function of its input *)

Module ApiFacts.

Import ApiValidator Shape TrimFacts.

Lemma posts_not_users name :
  strictEqStr name "Posts" = true -> strictEqStr name "Users" = false.
Proof.
  destruct name; simpl; try discriminate.
  intros H. apply String.eqb_eq in H. now subst.
Qed.

Lemma strictEqStr_true v lit : strictEqStr v lit = true <-> v = VStr lit.
Proof.
  destruct v; simpl; split; try discriminate.
  - intros H. apply String.eqb_eq in H. now subst.
  - intros H. injection H as ->. apply String.eqb_refl.
Qed.

Lemma getField_spec item key :
  getField item key = if isNullish item then Throw TypeError else Normal (field item key).
Proof. destruct item; reflexivity. Qed.

(** The "Posts" branch of the callback, on the three fields. *)
Lemma posts_branch index u t b acc :
  (let! c := postsCondition u t b in
   if c then
     let! e := postsEntry index u t b in Normal (acc ++ [e])
   else Normal acc)
  = if isText t && isText b then
      Normal (acc ++
        if userIdNotNumber u || isBlank t || isBlank b then
          [VObj [ ("index", VNum (Z.of_nat index)); ("userId", u); ("title", t);
                  ("body", b);
                  ("reason", VArr ((if userIdNotNumber u then [VStr "userId is not a number"] else [])
                                   ++ (if isBlank t then [VStr "title is empty"] else [])
                                   ++ (if isBlank b then [VStr "body is empty"] else []))) ]]
        else [])
    else Throw TypeError.
Proof.
  unfold postsCondition, postsEntry, postsReasonSlots.
  rewrite !notOptTrim_spec.
  destruct (userIdNotNumber u), (isText t), (isBlank t), (isText b), (isBlank b);
    simpl; rewrite ?app_nil_r; reflexivity.
Qed.

Lemma users_branch index n acc :
  (let! c := notOptTrim n in
   if c then Normal (acc ++ [usersEntry index n]) else Normal acc)
  = if isText n then
      Normal (acc ++ if isBlank n then [usersEntry index n] else [])
    else Throw TypeError.
Proof.
  rewrite notOptTrim_spec.
  destruct (isText n), (isBlank n); simpl; rewrite ?app_nil_r; reflexivity.
Qed.

(** One call of the callback: a fault when the record cannot be checked,
    and otherwise at most one entry pushed. *)
Lemma callback_spec name item index acc :
  callback name item index acc
  = if checkable name item then Normal (acc ++ option_list (verdict name index item))
    else Throw TypeError.
Proof.
  unfold callback, checkable, verdict, violates, entryOf.
  rewrite !getField_spec.
  destruct (isNullish item); [reflexivity|]. cbn [bind negb andb].
  destruct (strictEqStr name "Posts") eqn:P.
  - rewrite (posts_not_users _ P).
    rewrite posts_branch. unfold postsReasons.
    destruct (isText (field item "title") && isText (field item "body")); [|reflexivity].
    cbn [bind].
    destruct (userIdNotNumber (field item "userId") || isBlank (field item "title")
              || isBlank (field item "body")); reflexivity.
  - cbn [bind]. destruct (strictEqStr name "Users") eqn:U.
    + rewrite users_branch.
      destruct (isText (field item "name")); [|reflexivity].
      destruct (isBlank (field item "name")); reflexivity.
    + now rewrite app_nil_r.
Qed.

Lemma forEachFrom_spec name items : forall index acc,
  forEachFrom (callback name) items index acc
  = if forallb (checkable name) items then
      Normal (acc ++ omap id (imap (fun k => verdict name (index + k)) items))
    else Throw TypeError.
Proof.
  induction items as [|item rest IH]; intros index acc.
  - simpl. now rewrite app_nil_r.
  - cbn [forEachFrom forallb]. rewrite callback_spec.
    destruct (checkable name item); [|reflexivity].
    cbn [bind andb]. rewrite IH.
    destruct (forallb (checkable name) rest); [|reflexivity].
    f_equal. rewrite imap_cons. cbn [omap list_omap id].
    rewrite Nat.add_0_r, <- app_assoc. f_equal.
    assert (E : imap ((fun k => verdict name (index + k)%nat) ∘ S) rest
                = imap (fun k => verdict name (S index + k)%nat) rest).
    { apply imap_ext. intros i x _. simpl. f_equal. lia. }
    rewrite E. destruct (verdict name index item); reflexivity.
Qed.

(** [validateApiData] raises when some record cannot be checked under the
    label, and otherwise returns one entry per violating record, in the
    order of the records. *)
Lemma validateApiData_spec data name :
  validateApiData data name
  = if forallb (checkable name) data then Normal (invalidEntriesOf name data)
    else Throw TypeError.
Proof.
  unfold validateApiData, forEach. rewrite forEachFrom_spec. reflexivity.
Qed.

Lemma validateApiData_Normal data name out :
  validateApiData data name = Normal out ->
  forallb (checkable name) data = true /\ out = invalidEntriesOf name data.
Proof.
  rewrite validateApiData_spec.
  destruct (forallb (checkable name) data); [|discriminate].
  intros H. injection H as <-. auto.
Qed.

(** An entry of the result comes from the record at the position its
    [index] names. *)
Lemma elem_of_invalidEntriesOf name data e :
  e ∈ invalidEntriesOf name data <->
  exists i item, data !! i = Some item /\ violates name item = true
                 /\ e = entryOf name i item.
Proof.
  unfold invalidEntriesOf. rewrite list_elem_of_omap. split.
  - intros (o & Ho & Hid). simpl in Hid. subst o.
    apply list_elem_of_lookup in Ho as (i & Hi).
    rewrite list_lookup_imap in Hi.
    destruct (data !! i) as [item|] eqn:D; [|discriminate].
    simpl in Hi. injection Hi as Hi. unfold verdict in Hi.
    destruct (violates name item) eqn:V; [|discriminate].
    injection Hi as <-. eauto.
  - intros (i & item & D & V & ->). exists (Some (entryOf name i item)).
    split; [|reflexivity]. apply list_elem_of_lookup. exists i.
    rewrite list_lookup_imap, D. simpl. unfold verdict. now rewrite V.
Qed.

Lemma entryIndex_entryOf name i item : entryIndex (entryOf name i item) = Some i.
Proof.
  unfold entryOf, entryIndex.
  destruct (strictEqStr name "Posts"); simpl;
    (destruct (0 <=? Z.of_nat i) eqn:E;
     [now rewrite Nat2Z.id | apply Z.leb_gt in E; lia]).
Qed.

Lemma invalidEntriesOf_entriesFrom name data :
  invalidEntriesOf name data = entriesFrom name 0 data.
Proof. reflexivity. Qed.

Lemma entriesFrom_cons name n item rest :
  entriesFrom name n (item :: rest)
  = option_list (verdict name n item) ++ entriesFrom name (S n) rest.
Proof.
  unfold entriesFrom. rewrite imap_cons. cbn [omap list_omap id].
  rewrite Nat.add_0_r.
  assert (E : imap ((fun k => verdict name (n + k)%nat) ∘ S) rest
              = imap (fun k => verdict name (S n + k)%nat) rest).
  { apply imap_ext. intros i x _. simpl. f_equal. lia. }
  rewrite E. destruct (verdict name n item); reflexivity.
Qed.

Lemma elem_of_entriesFrom name data : forall n e,
  e ∈ entriesFrom name n data ->
  exists i item, data !! i = Some item /\ violates name item = true
                 /\ e = entryOf name (n + i) item.
Proof.
  induction data as [|x rest IH]; intros n e H.
  - inversion H.
  - rewrite entriesFrom_cons in H. apply elem_of_app in H as [H | H].
    + unfold verdict in H. destruct (violates name x) eqn:V; [|inversion H].
      apply list_elem_of_singleton in H. subst e.
      exists 0%nat, x. rewrite Nat.add_0_r. auto.
    + apply IH in H as (i & item & D & V & ->).
      exists (S i), item. repeat split; auto. f_equal. lia.
Qed.

(** The entries come in the order of the records they are about. *)
Lemma entriesFrom_ordered name data : forall n (j k : nat) ej ek,
  (j < k)%nat ->
  entriesFrom name n data !! j = Some ej ->
  entriesFrom name n data !! k = Some ek ->
  exists ij ik, entryIndex ej = Some ij /\ entryIndex ek = Some ik /\ (ij < ik)%nat.
Proof.
  induction data as [|x rest IH]; intros n j k ej ek Hjk Hj Hk.
  - discriminate.
  - rewrite entriesFrom_cons in Hj, Hk.
    destruct (verdict name n x) as [e|] eqn:V; simpl in Hj, Hk.
    + destruct k as [|k']; [lia|]. simpl in Hk.
      destruct j as [|j']; simpl in Hj.
      * injection Hj as <-.
        unfold verdict in V. destruct (violates name x); [|discriminate].
        injection V as <-.
        assert (Hin : ek ∈ entriesFrom name (S n) rest)
          by (apply list_elem_of_lookup; eauto).
        apply elem_of_entriesFrom in Hin as (i & item & _ & _ & ->).
        exists n, (S n + i)%nat. rewrite !entryIndex_entryOf.
        repeat split; lia.
      * apply (IH (S n) j' k'); auto. lia.
    + apply (IH (S n) j k); auto.
Qed.

Lemma filter_none {A} (p : A -> bool) (l : list A) :
  (forall x, x ∈ l -> p x = false) -> List.filter p l = [].
Proof.
  induction l as [|a l IH]; intros H; simpl; [reflexivity|].
  rewrite (H a) by apply list_elem_of_here.
  apply IH. intros x Hx. apply H. now apply list_elem_of_further.
Qed.

(** Among the entries, those about position [i]: the one entry of the
    record there when it violates a rule, and none otherwise. *)
Lemma entriesFrom_at name data : forall n i,
  List.filter (hasIndex (n + i)) (entriesFrom name n data)
  = option_list (data !! i ≫= verdict name (n + i)).
Proof.
  induction data as [|x rest IH]; intros n i.
  - reflexivity.
  - rewrite entriesFrom_cons, List.filter_app.
    assert (Hhead : forall e, verdict name n x = Some e -> hasIndex n e = true).
    { unfold verdict. intros e He. destruct (violates name x); [|discriminate].
      injection He as <-. unfold hasIndex. rewrite entryIndex_entryOf.
      apply Nat.eqb_refl. }
    assert (Htail : forall m e, e ∈ entriesFrom name (S n) rest ->
                      (m <= n)%nat -> hasIndex m e = false).
    { intros m e He Hm. apply elem_of_entriesFrom in He as (k & item & _ & _ & ->).
      unfold hasIndex. rewrite entryIndex_entryOf. apply Nat.eqb_neq. lia. }
    destruct i as [|i'].
    + rewrite Nat.add_0_r. cbn [lookup list_lookup mbind option_bind].
      rewrite (filter_none _ (entriesFrom name (S n) rest))
        by (intros e He; apply (Htail n e He); lia).
      rewrite app_nil_r.
      destruct (verdict name n x) as [e|] eqn:V; simpl; [|reflexivity].
      now rewrite (Hhead e eq_refl).
    + replace (n + S i')%nat with (S n + i')%nat by lia.
      rewrite IH. cbn [lookup list_lookup].
      destruct (verdict name n x) as [e|] eqn:V; simpl; [|reflexivity].
      unfold verdict in V. destruct (violates name x); [|discriminate].
      injection V as <-. unfold hasIndex at 1. rewrite entryIndex_entryOf.
      replace (n =? S (n + i'))%nat with false; [reflexivity|].
      symmetry. apply Nat.eqb_neq. lia.
Qed.

Lemma checkable_all data name out :
  validateApiData data name = Normal out ->
  forall item, item ∈ data -> checkable name item = true.
Proof.
  intros H item Hin. apply validateApiData_Normal in H as [H _].
  rewrite forallb_forall in H. apply H. now apply list_elem_of_In.
Qed.

End ApiFacts.

(** ** The resource loop as a function of the navigations *)

Module ResourceFacts.

Import ResourceValidator.

Section Facts.

Context {Page : Type}.
Variable goto : Page -> string -> Navigation * Page.

Lemma helper_round nav res acc :
  tryCatch (helperTry nav res acc) (onFault res acc) = acc ++ recorded res nav.
Proof.
  unfold helperTry.
  destruct nav as [|[r|]]; cbn; try reflexivity.
  destruct (Response.status r =? 200); cbn; [now rewrite app_nil_r | reflexivity].
Qed.

Lemma recorded_checkResult res nav :
  recorded res nav
  = List.filter (fun e => negb (isOk e)) [checkResult res nav].
Proof.
  destruct nav as [|[r|]]; simpl; try reflexivity.
  unfold isOk. simpl. destruct (Response.status r =? 200); reflexivity.
Qed.

Lemma loop_helper_acc resources : forall page acc,
  fst (loop goto helperTry page resources acc)
  = acc ++ fst (loop goto helperTry page resources []).
Proof.
  induction resources as [|res rest IH]; intros page acc; simpl.
  - now rewrite app_nil_r.
  - destruct (goto page res) as [nav page'].
    rewrite !helper_round. rewrite IH. rewrite (IH page' ([] ++ _)).
    simpl. now rewrite app_assoc.
Qed.

Lemma validateResources_cons page res rest :
  fst (validateResources goto page (res :: rest))
  = recorded res (fst (goto page res))
    ++ fst (validateResources goto (snd (goto page res)) rest).
Proof.
  unfold validateResources. simpl.
  destruct (goto page res) as [nav page']. simpl.
  rewrite helper_round, loop_helper_acc. reflexivity.
Qed.

Lemma validateResources_app pre : forall page post,
  fst (validateResources goto page (pre ++ post))
  = fst (validateResources goto page pre)
    ++ fst (validateResources goto (pageAfter goto page pre) post).
Proof.
  induction pre as [|res rest IH]; intros page post.
  - reflexivity.
  - cbn [app]. rewrite !validateResources_cons, IH, app_assoc. reflexivity.
Qed.

Lemma checkResults_cons page res rest :
  checkResults goto page (res :: rest)
  = checkResult res (fst (goto page res))
    :: checkResults goto (snd (goto page res)) rest.
Proof.
  unfold checkResults. simpl. destruct (goto page res); reflexivity.
Qed.

(** The helper returns the check results that are not OK, in order. *)
Lemma validateResources_filter resources : forall page,
  fst (validateResources goto page resources)
  = List.filter (fun e => negb (isOk e)) (checkResults goto page resources).
Proof.
  induction resources as [|res rest IH]; intros page.
  - reflexivity.
  - rewrite validateResources_cons, checkResults_cons, IH, recorded_checkResult.
    simpl. destruct (negb (isOk (checkResult res (fst (goto page res))))); reflexivity.
Qed.

(** There is one check result per URL, about that URL. *)
Lemma checkResults_resources resources : forall page,
  map resource (checkResults goto page resources) = resources.
Proof.
  induction resources as [|res rest IH]; intros page.
  - reflexivity.
  - rewrite checkResults_cons. simpl. now rewrite IH.
Qed.

Lemma sublist_map_filter {A B} (f : A -> B) (p : A -> bool) (l : list A) :
  sublist (map f (List.filter p l)) (map f l).
Proof.
  induction l as [|a l IH]; simpl.
  - constructor.
  - destruct (p a); simpl; now constructor.
Qed.

Lemma inline_round nav res acc :
  tryCatch (inlineTry nav res acc) (onFault res acc) = acc ++ recordedInline res nav.
Proof.
  unfold inlineTry.
  destruct nav as [|[r|]]; cbn; try reflexivity.
  destruct (Response.status r =? 200); cbn; [now rewrite app_nil_r | reflexivity].
Qed.

(** The two loops agree as long as no navigation resolves to [null]. *)
Lemma inline_agrees_without_null resources : forall page acc,
  Forall (fun rn => snd rn <> Resolves None) (navigations goto page resources) ->
  loop goto inlineTry page resources acc = loop goto helperTry page resources acc.
Proof.
  induction resources as [|res rest IH]; intros page acc H; simpl in *.
  - reflexivity.
  - destruct (goto page res) as [nav page'].
    inversion H as [|? ? Hnav Hrest]; subst.
    rewrite inline_round, helper_round.
    replace (recordedInline res nav) with (recorded res nav).
    + now apply IH.
    + destruct nav as [|[r|]]; simpl in *; congruence.
Qed.

End Facts.

End ResourceFacts.

(** ** The audit scenario and the browser context *)

Module AuditFacts.

Import AuditScenario.

(** Once the reports directory is ensured, every run calls the context's
    [close] after the launch: the [finally] block covers the oracle, the
    report and the [catch] block. *)
Lemma closed_once_directory_ensured w :
  directoryEnsured w = true -> closedAfterLaunch (traceOf w) = true.
Proof.
  destruct w as [imp lau ex mk lh wr cl]. unfold directoryEnsured, traceOf. simpl.
  destruct imp as [[]|?], lau as [[]|?], ex, mk as [[]|?], wr as [[]|?], cl as [[]|?];
    simpl; intros H; try discriminate H;
    destruct lh as [[[p|] [s|] [a|] [b|]]|?]; reflexivity.
Qed.

End AuditFacts.

(** ** Properties of the resource validator *)

Module ResourceProperties.

Import ResourceValidator ResourceFacts.

(** C1 (status partition). For every list of resource URLs and every
    navigation capability, the list [validateResources] returns is the
    subsequence of the per-URL check results whose status is not [200]:
    it is those results filtered, in order, and every check result either
    has status [200] and is not in the returned list, or has another status
    and is in it. *)
Theorem status_partition {Page : Type} (goto : Page -> string -> Navigation * Page)
    (page : Page) (resources : list string) :
  let broken := fst (validateResources goto page resources) in
  let results := checkResults goto page resources in
  broken = List.filter (fun r => negb (isOk r)) results
  /\ forall r, r ∈ results ->
       (status r = VNum 200 /\ r ∉ broken) \/ (status r <> VNum 200 /\ r ∈ broken).
Proof.
  intros broken results.
  assert (E : broken = List.filter (fun r => negb (isOk r)) results)
    by apply validateResources_filter.
  split; [exact E|].
  intros r Hr. rewrite E.
  assert (Hok : isOk r = true <-> status r = VNum 200).
  { unfold isOk, strictEqNum. destruct (status r); split; try discriminate.
    - intros H. apply Z.eqb_eq in H. now subst.
    - intros H. injection H as ->. reflexivity. }
  destruct (isOk r) eqn:O.
  - left. split; [now apply Hok|].
    rewrite list_elem_of_In, filter_In, O. intros [_ H]. discriminate.
  - right. split.
    + intros H. apply Hok in H. discriminate.
    + rewrite list_elem_of_In, filter_In, O. split; [now apply list_elem_of_In | reflexivity].
Qed.

(** C2 (fault classification). For every resource URL the loop of
    [validateResources] processes, whatever came before and comes after
    it: when the navigation raises, the entry recorded for the URL has
    status ["Error"]; when it resolves to no response object, the status is
    ["No Response"]; when it resolves to a response whose status code is
    not 200, the status is that code (and a 200 records nothing). *)
Theorem fault_classification {Page : Type} (goto : Page -> string -> Navigation * Page)
    (page : Page) (pre : list string) (res : string) (post : list string) :
  let here := pageAfter goto page pre in
  let before := fst (validateResources goto page pre) in
  let after := fst (validateResources goto (snd (goto here res)) post) in
  fst (validateResources goto page (pre ++ res :: post))
  = before
    ++ match fst (goto here res) with
       | Rejects => [{| resource := res; status := VStr "Error" |}]
       | Resolves None => [{| resource := res; status := VStr "No Response" |}]
       | Resolves (Some r) =>
           if Response.status r =? 200 then []
           else [{| resource := res; status := VNum (Response.status r) |}]
       end
    ++ after.
Proof.
  intros here before after.
  rewrite validateResources_app, validateResources_cons. reflexivity.
Qed.

(** C9 (inline copy against the helper). The inline loop of the second
    test file and [validateResources] are run on one URL whose navigation
    resolves to no response object: the helper records ["No Response"],
    the inline loop calls [status()] on [null], lands in its [catch] and
    records ["Error"], so the two lists differ. *)
Theorem inline_loop_diverges_on_null :
  fst (validateResources alwaysNull tt ["https://example.test/a.css"])
    = [{| resource := "https://example.test/a.css"; status := VStr "No Response" |}]
  /\ fst (inlineValidation alwaysNull tt ["https://example.test/a.css"])
    = [{| resource := "https://example.test/a.css"; status := VStr "Error" |}]
  /\ fst (inlineValidation alwaysNull tt ["https://example.test/a.css"])
     <> fst (validateResources alwaysNull tt ["https://example.test/a.css"]).
Proof.
  repeat split; try reflexivity. discriminate.
Qed.

End ResourceProperties.

(** ** Properties of the audit scenario *)

Module AuditProperties.

Import AuditScenario.

(** C4 (context closed on every exit path). In the run where the reports
    directory is absent and [fs.mkdirSync] raises, the fault leaves the
    step before its [try] block is entered: the scenario ends with that
    fault, the context was launched, and its [close] is never called. *)
Theorem context_left_open_when_mkdir_fails :
  auditScenario mkdirFails []
    = (Throw HostFault,
       [ Ev ImportLighthouse true; Ev LaunchPersistentContext true;
         Ev ExistsSync true; Ev MkdirSync false ])
  /\ closedAfterLaunch (traceOf mkdirFails) = false.
Proof.
  split; reflexivity.
Qed.

End AuditProperties.

(** ** Properties of the record validator *)

Module ApiProperties.

Import ApiValidator Shape TrimFacts ApiFacts.

Lemma postsReasons_members item :
  let reason := postsReasons item in
  (VStr "userId is not a number" ∈ reason <-> typeof (field item "userId") <> "number")
  /\ (VStr "title is empty" ∈ reason <-> Blank (field item "title"))
  /\ (VStr "body is empty" ∈ reason <-> Blank (field item "body"))
  /\ forall r, r ∈ reason ->
       r = VStr "userId is not a number" \/ r = VStr "title is empty"
       \/ r = VStr "body is empty".
Proof.
  unfold postsReasons, userIdNotNumber.
  rewrite <- !isBlank_Blank.
  assert (N : typeof (field item "userId") <> "number"
              <-> negb (String.eqb (typeof (field item "userId")) "number") = true).
  { rewrite negb_true_iff. symmetry. apply String.eqb_neq. }
  rewrite N.
  destruct (negb (String.eqb (typeof (field item "userId")) "number")),
    (isBlank (field item "title")), (isBlank (field item "body")); simpl;
    repeat split; intros; try discriminate;
    repeat match goal with
           | H : _ ∈ [] |- _ => inversion H
           | H : _ ∈ _ :: _ |- _ => apply elem_of_cons in H as [H | H]
           | H : VStr _ = VStr _ |- _ => discriminate H
           end;
    subst; auto;
    repeat first [ apply list_elem_of_here | apply list_elem_of_further ].
Qed.

(** C3 (reason completeness, "Posts"). Every entry [validateApiData]
    returns under the label "Posts" is about the record at its index, and
    its [reason] lists, in the order of the rule, the description of each
    sub-condition the record violates (userId not a number, title blank,
    body blank) and nothing for the ones that pass. The record
    [{userId: "x", title: "", body: "ok"}] yields the reason
    [["userId is not a number", "title is empty"]]. *)
Theorem posts_reason_completeness :
  (forall data out,
     validateApiData data (VStr "Posts") = Normal out ->
     forall e, e ∈ out ->
     exists i item reason,
       entryIndex e = Some i /\ data !! i = Some item
       /\ entryProp e "reason" = Some (VArr reason)
       /\ reason =
            (if negb (String.eqb (typeof (field item "userId")) "number")
             then [VStr "userId is not a number"] else [])
            ++ (if isBlank (field item "title") then [VStr "title is empty"] else [])
            ++ (if isBlank (field item "body") then [VStr "body is empty"] else [])
       /\ (VStr "userId is not a number" ∈ reason
           <-> typeof (field item "userId") <> "number")
       /\ (VStr "title is empty" ∈ reason <-> Blank (field item "title"))
       /\ (VStr "body is empty" ∈ reason <-> Blank (field item "body"))
       /\ (forall r, r ∈ reason ->
             r = VStr "userId is not a number" \/ r = VStr "title is empty"
             \/ r = VStr "body is empty"))
  /\ validateApiData
       [VObj [("userId", VStr "x"); ("title", VStr ""); ("body", VStr "ok")]]
       (VStr "Posts")
     = Normal [VObj [ ("index", VNum 0);
                      ("userId", VStr "x");
                      ("title", VStr "");
                      ("body", VStr "ok");
                      ("reason", VArr [VStr "userId is not a number";
                                       VStr "title is empty"]) ]].
Proof.
  split; [|reflexivity].
  intros data out H e He.
  apply validateApiData_Normal in H as [_ ->].
  apply elem_of_invalidEntriesOf in He as (i & item & D & _ & ->).
  exists i, item, (postsReasons item).
  rewrite entryIndex_entryOf.
  destruct (postsReasons_members item) as (M1 & M2 & M3 & M4).
  repeat split; auto; try apply M1; try apply M2; try apply M3.
Qed.

Lemma posts_reason_completeness_witness :
  let data := [VObj [("userId", VNum 7); ("title", VStr " "); ("body", VNull)]] in
  let e := VObj [ ("index", VNum 0); ("userId", VNum 7); ("title", VStr " ");
                  ("body", VNull);
                  ("reason", VArr [VStr "title is empty"; VStr "body is empty"]) ] in
  validateApiData data (VStr "Posts") = Normal [e]
  /\ exists i item reason,
       entryIndex e = Some i /\ data !! i = Some item
       /\ entryProp e "reason" = Some (VArr reason)
       /\ VStr "title is empty" ∈ reason.
Proof.
  intros data e. split; [reflexivity|].
  destruct (proj1 posts_reason_completeness data [e] eq_refl e (list_elem_of_here _ _))
    as (i & item & reason & Hi & Hd & Hr & _ & _ & Ht & _).
  exists i, item, reason. repeat split; auto.
  apply Ht. simpl in Hi. injection Hi as <-. simpl in Hd. injection Hd as <-.
  right. right. exists " ". split; reflexivity.
Defined.

Lemma isText_Text v : isText v = true <-> Text v.
Proof.
  unfold Text. destruct v; simpl; split; intros H; try discriminate; eauto;
    destruct H as [H | [H | (s' & H)]]; discriminate.
Qed.

Lemma single_users v :
  validateApiData [VObj [("name", v)]] (VStr "Users")
  = if isText v then
      Normal (if isBlank v then [usersEntry 0 v] else [])
    else Throw TypeError.
Proof.
  rewrite validateApiData_spec. unfold invalidEntriesOf, verdict, violates, checkable.
  cbn. destruct (isText v), (isBlank v); reflexivity.
Qed.

Lemma single_posts u t b :
  validateApiData [VObj [("userId", u); ("title", t); ("body", b)]] (VStr "Posts")
  = if isText t && isText b then
      Normal (if userIdNotNumber u || isBlank t || isBlank b then
                [VObj [ ("index", VNum 0); ("userId", u); ("title", t); ("body", b);
                        ("reason",
                         VArr ((if userIdNotNumber u then [VStr "userId is not a number"] else [])
                               ++ (if isBlank t then [VStr "title is empty"] else [])
                               ++ (if isBlank b then [VStr "body is empty"] else []))) ]]
              else [])
    else Throw TypeError.
Proof.
  rewrite validateApiData_spec.
  unfold invalidEntriesOf, verdict, violates, checkable, entryOf, postsReasons.
  cbn. rewrite andb_true_r.
  destruct (isText t && isText b), (userIdNotNumber u || isBlank t || isBlank b);
    reflexivity.
Qed.

(** C6 (blank detection). The check [!x?.trim()] behind the title, body
    and name rules classifies a value as blank exactly when it is
    [null]/[undefined] or a string whose trimmed form is empty, that is, a
    string of white space only; ["  "], [""], [null] and [undefined] are
    blank. A one-record collection shows the three checks at work: the
    record is logged with the reason of the field exactly when the field
    is blank. *)
Theorem blank_classification :
  (forall v, notOptTrim v = Normal true <-> Blank v)
  /\ (forall s, Blank (VStr s) <-> allWhiteSpace s = true)
  /\ (Blank (VStr "  ") /\ Blank (VStr "") /\ Blank VNull /\ Blank VUndefined)
  /\ (forall v,
        validateApiData [VObj [("userId", VNum 1); ("title", v); ("body", VStr "b")]]
          (VStr "Posts")
        = Normal [VObj [ ("index", VNum 0); ("userId", VNum 1); ("title", v);
                         ("body", VStr "b"); ("reason", VArr [VStr "title is empty"]) ]]
        <-> Blank v)
  /\ (forall v,
        validateApiData [VObj [("userId", VNum 1); ("title", VStr "t"); ("body", v)]]
          (VStr "Posts")
        = Normal [VObj [ ("index", VNum 0); ("userId", VNum 1); ("title", VStr "t");
                         ("body", v); ("reason", VArr [VStr "body is empty"]) ]]
        <-> Blank v)
  /\ (forall v,
        validateApiData [VObj [("name", v)]] (VStr "Users")
        = Normal [VObj [ ("index", VNum 0); ("userName", v);
                         ("reason", VArr [VStr "name is empty"]) ]]
        <-> Blank v).
Proof.
  assert (T : forall v, isBlank v = true -> isText v = false -> False).
  { intros v B N. apply isBlank_isText in B. congruence. }
  repeat apply conj.
  - intros v. rewrite notOptTrim_spec, <- isBlank_Blank.
    destruct (isText v) eqn:E, (isBlank v) eqn:B; split; intros H;
      try discriminate; try reflexivity.
    exfalso. eapply T; eauto.
  - intros s. rewrite <- trim_blank. unfold Blank. split.
    + intros [H | [H | (s' & H & Ht)]]; try discriminate. now injection H as ->.
    + intros H. right. right. eauto.
  - apply isBlank_Blank. reflexivity.
  - apply isBlank_Blank. reflexivity.
  - apply isBlank_Blank. reflexivity.
  - apply isBlank_Blank. reflexivity.
  - intros v. rewrite single_posts, <- isBlank_Blank. cbn.
    destruct (isText v) eqn:E, (isBlank v) eqn:B; cbn; split; intros H;
      try discriminate; try reflexivity.
    exfalso. eapply T; eauto.
  - intros v. rewrite single_posts, <- isBlank_Blank. cbn.
    destruct (isText v) eqn:E, (isBlank v) eqn:B; cbn; split; intros H;
      try discriminate; try reflexivity.
    exfalso. eapply T; eauto.
  - intros v. rewrite single_users, <- isBlank_Blank.
    destruct (isText v) eqn:E, (isBlank v) eqn:B; cbn; split; intros H;
      try discriminate; try reflexivity.
    exfalso. eapply T; eauto.
Qed.

(** C7 (unrecognized labels). For every collection of records (indeed of
    any values but [null] and [undefined], whose fields cannot be read) and
    every label other than "Posts" and "Users", [validateApiData] returns
    the empty list. *)
Theorem unrecognized_label_no_violations (data : list Value) (name : Value) :
  name <> VStr "Posts" -> name <> VStr "Users" ->
  Forall (fun item => isNullish item = false) data ->
  validateApiData data name = Normal [].
Proof.
  intros P U R.
  assert (P' : strictEqStr name "Posts" = false).
  { destruct (strictEqStr name "Posts") eqn:E; [|reflexivity].
    apply strictEqStr_true in E. contradiction. }
  assert (U' : strictEqStr name "Users" = false).
  { destruct (strictEqStr name "Users") eqn:E; [|reflexivity].
    apply strictEqStr_true in E. contradiction. }
  rewrite validateApiData_spec.
  replace (forallb (checkable name) data) with true.
  - f_equal. apply elem_of_nil_inv. intros e He.
    apply elem_of_invalidEntriesOf in He as (i & item & _ & V & _).
    unfold violates in V. rewrite P', U' in V. discriminate.
  - symmetry. apply forallb_forall. intros item Hin.
    rewrite List.Forall_forall in R. unfold checkable.
    rewrite (R item Hin), P', U'. reflexivity.
Qed.

Lemma unrecognized_label_no_violations_witness :
  validateApiData
    [VObj [("userId", VStr "x"); ("title", VNum 5)]; VObj []; VStr "stray"]
    (VStr "Comments")
  = Normal [].
Proof.
  apply unrecognized_label_no_violations.
  - discriminate.
  - discriminate.
  - repeat constructor.
Defined.

(** Under "Posts" the entries do carry the checked fields under the
    names they have in the record. *)
Lemma posts_keep_field_names data : keepsFieldNames (VStr "Posts") data.
Proof.
  intros out H e He. apply validateApiData_Normal in H as [_ ->].
  apply elem_of_invalidEntriesOf in He as (i & item & D & _ & ->).
  exists i, item. rewrite entryIndex_entryOf. repeat split; auto.
  intros key Hk. cbn in Hk.
  repeat (apply elem_of_cons in Hk as [-> | Hk]; [reflexivity|]).
  inversion Hk.
Qed.

(** C8, as stated, fails under "Users": the entry logged for the record
    [{name: ""}] has no property [name]; the value of the record's [name]
    is logged under [userName]. *)
Lemma users_entry_renames_field :
  ~ keepsFieldNames (VStr "Users") [VObj [("name", VStr "")]].
Proof.
  intros K.
  destruct (K [usersEntry 0 (VStr "")] eq_refl (usersEntry 0 (VStr ""))
              (list_elem_of_here _ _)) as (i & item & Hi & Hd & Hk).
  simpl in Hi. injection Hi as <-. simpl in Hd. injection Hd as <-.
  specialize (Hk "name" (list_elem_of_here _ _)). discriminate Hk.
Qed.

(** C8 (shape of an entry), amended. Under "Posts" and under "Users",
    every entry [validateApiData] returns is about a record that violates
    the rule of the label and consists of the zero-based index of that
    record, then under "Posts" the record's [userId], [title] and [body]
    under those names, and under "Users" the value of the record's [name]
    under the key [userName], then the ordered reason list. For every
    position, the entries with that index are exactly one entry when the
    record there violates the rule, and none when it does not. *)
Theorem invalid_entry_shape (data : list Value) (name : Value) (out : list Value) :
  name = VStr "Posts" \/ name = VStr "Users" ->
  validateApiData data name = Normal out ->
  (forall e, e ∈ out ->
     exists i item,
       data !! i = Some item /\ violates name item = true
       /\ ((name = VStr "Posts"
            /\ e = VObj [ ("index", VNum (Z.of_nat i));
                          ("userId", field item "userId");
                          ("title", field item "title");
                          ("body", field item "body");
                          ("reason", VArr (postsReasons item)) ])
           \/ (name = VStr "Users"
               /\ e = VObj [ ("index", VNum (Z.of_nat i));
                             ("userName", field item "name");
                             ("reason", VArr [VStr "name is empty"]) ])))
  /\ (forall i item, data !! i = Some item ->
        List.filter (hasIndex i) out
        = if violates name item then [entryOf name i item] else []).
Proof.
  intros L H. apply validateApiData_Normal in H as [_ ->]. split.
  - intros e He. apply elem_of_invalidEntriesOf in He as (i & item & D & V & ->).
    exists i, item. repeat split; auto.
    destruct L as [-> | ->]; [left | right]; split; reflexivity.
  - intros i item D. rewrite invalidEntriesOf_entriesFrom.
    pose proof (entriesFrom_at name data 0 i) as F. cbn [Nat.add] in F.
    rewrite F, D. cbn. unfold verdict.
    destruct (violates name item); reflexivity.
Qed.

Lemma invalid_entry_shape_witness :
  let data := [VObj [("name", VStr "Ann")]; VObj [("name", VStr " ")]] in
  let out := [VObj [ ("index", VNum 1); ("userName", VStr " ");
                     ("reason", VArr [VStr "name is empty"]) ]] in
  validateApiData data (VStr "Users") = Normal out
  /\ List.filter (hasIndex 1) out = out
  /\ List.filter (hasIndex 0) out = [].
Proof.
  intros data out.
  pose proof (invalid_entry_shape data (VStr "Users") out (or_intror eq_refl) eq_refl)
    as [_ F].
  split; [reflexivity | split].
  - exact (F 1%nat (VObj [("name", VStr " ")]) eq_refl).
  - exact (F 0%nat (VObj [("name", VStr "Ann")]) eq_refl).
Defined.

(** C10 (faults on non-string fields). [validateApiData] returns normally
    only when, in every record, the string fields the label's rule trims
    ([title] and [body] under "Posts", [name] under "Users") are each
    [null]/[undefined] or a string. On a record whose [title] is the
    number 5 the call under "Posts" raises a [TypeError]; no entry is
    produced for the record. *)
Theorem faults_on_non_string_field :
  (forall data name out,
     validateApiData data name = Normal out ->
     forall item, item ∈ data ->
       (name = VStr "Posts" ->
          Text (field item "title") /\ Text (field item "body"))
       /\ (name = VStr "Users" -> Text (field item "name")))
  /\ validateApiData
       [VObj [("userId", VNum 1); ("title", VNum 5); ("body", VStr "b")]]
       (VStr "Posts")
     = Throw TypeError.
Proof.
  split; [|reflexivity].
  intros data name out H item Hin.
  pose proof (checkable_all data name out H item Hin) as C.
  unfold checkable in C. apply andb_true_iff in C as [_ C].
  split; intros ->; cbn in C.
  - apply andb_true_iff in C as [C1 C2]. split; now apply isText_Text.
  - now apply isText_Text.
Qed.

Lemma faults_on_non_string_field_witness :
  let data := [VObj [("userId", VNum 1); ("title", VStr "t")]] in
  validateApiData data (VStr "Posts")
  = Normal [VObj [ ("index", VNum 0); ("userId", VNum 1); ("title", VStr "t");
                   ("body", VUndefined); ("reason", VArr [VStr "body is empty"]) ]]
  /\ Text (field (VObj [("userId", VNum 1); ("title", VStr "t")]) "title")
  /\ Text (field (VObj [("userId", VNum 1); ("title", VStr "t")]) "body").
Proof.
  intros data. split; [reflexivity|].
  exact (proj1 (proj1 faults_on_non_string_field data (VStr "Posts") _ eq_refl
                  _ (list_elem_of_here _ _)) eq_refl).
Defined.

End ApiProperties.

(** ** Order of the results *)

Module OrderProperties.

Import ApiValidator Shape ApiFacts ResourceValidator ResourceShape ResourceFacts.

Lemma sublist_filter_bool {A} (p : A -> bool) (l : list A) :
  sublist (List.filter p l) l.
Proof.
  induction l as [|a l IH]; simpl.
  - constructor.
  - destruct (p a); now constructor.
Qed.

Lemma sublist_lookup_one {A} (l1 l2 : list A) :
  sublist l1 l2 ->
  forall (j : nat) a, l1 !! j = Some a -> exists i : nat, l2 !! i = Some a.
Proof.
  induction 1 as [|x l1 l2 _ IH|x l1 l2 _ IH]; intros j a Hj.
  - discriminate.
  - destruct j as [|j']; simpl in Hj.
    + exists 0%nat. exact Hj.
    + destruct (IH j' a Hj) as (i & Hi). exists (S i). exact Hi.
  - destruct (IH j a Hj) as (i & Hi). exists (S i). exact Hi.
Qed.

(** Two elements of a subsequence are found in the list at two positions
    in the same order. *)
Lemma sublist_lookup_pair {A} (l1 l2 : list A) :
  sublist l1 l2 ->
  forall (j k : nat) a b,
    (j < k)%nat -> l1 !! j = Some a -> l1 !! k = Some b ->
    exists i1 i2 : nat, (i1 < i2)%nat /\ l2 !! i1 = Some a /\ l2 !! i2 = Some b.
Proof.
  induction 1 as [|x l1 l2 S IH|x l1 l2 S IH]; intros j k a b Hjk Hj Hk.
  - discriminate.
  - destruct k as [|k']; [lia|]. simpl in Hk.
    destruct j as [|j']; simpl in Hj.
    + destruct (sublist_lookup_one l1 l2 S k' b Hk) as (i & Hi).
      exists 0%nat, (Datatypes.S i). repeat split; [lia | exact Hj | exact Hi].
    + destruct (IH j' k' a b ltac:(lia) Hj Hk) as (i1 & i2 & Hlt & H1 & H2).
      exists (Datatypes.S i1), (Datatypes.S i2). repeat split; [lia | exact H1 | exact H2].
  - destruct (IH j k a b Hjk Hj Hk) as (i1 & i2 & Hlt & H1 & H2).
    exists (Datatypes.S i1), (Datatypes.S i2). repeat split; [lia | exact H1 | exact H2].
Qed.

Lemma lookup_map_Some {A B} (f : A -> B) (l : list A) :
  forall (i : nat) a, l !! i = Some a -> map f l !! i = Some (f a).
Proof.
  induction l as [|x l IH]; intros i a H; [discriminate|].
  destruct i as [|i']; simpl in *.
  - injection H as ->. reflexivity.
  - now apply IH.
Qed.

(** C5 (order preservation). There is one check result per input URL, at
    the position of the URL, and the entries [validateResources] returns
    are a subsequence of these check results: two entries of the returned
    list are the check results of two positions of the input in the same
    order, and each entry sits at a position of the input that holds its
    URL; in particular the resources of the entries are a subsequence of
    the input URLs. The entries [validateApiData] returns come in the
    order of the records they are about: an earlier entry has a smaller
    index; and the [index] of each entry is the zero-based position, in the
    source collection, of the offending record the entry is built from. *)
Theorem order_preservation :
  (forall (Page : Type) (goto : Page -> string -> Navigation * Page)
          (page : Page) (resources : list string),
     let broken := fst (validateResources goto page resources) in
     let results := checkResults goto page resources in
     sublist (map resource broken) resources
     /\ map resource results = resources
     /\ sublist broken results
     /\ (forall (j k : nat) ej ek,
           (j < k)%nat -> broken !! j = Some ej -> broken !! k = Some ek ->
           exists ij ik : nat,
             (ij < ik)%nat
             /\ results !! ij = Some ej /\ results !! ik = Some ek
             /\ resources !! ij = Some (resource ej)
             /\ resources !! ik = Some (resource ek))
     /\ (forall e, e ∈ broken ->
           exists i : nat,
             results !! i = Some e /\ resources !! i = Some (resource e)))
  /\ (forall data name out,
        validateApiData data name = Normal out ->
        (forall (j k : nat) ej ek,
           (j < k)%nat -> out !! j = Some ej -> out !! k = Some ek ->
           exists ij ik,
             entryIndex ej = Some ij /\ entryIndex ek = Some ik /\ (ij < ik)%nat)
        /\ (forall e, e ∈ out ->
              exists i item,
                entryProp e "index" = Some (VNum (Z.of_nat i))
                /\ data !! i = Some item
                /\ violates name item = true
                /\ e = entryOf name i item)).
Proof.
  split.
  - intros Page goto page resources broken results.
    assert (R : map resource results = resources)
      by apply checkResults_resources.
    assert (S : sublist broken results).
    { unfold broken. rewrite validateResources_filter. apply sublist_filter_bool. }
    assert (L : forall (i : nat) e, results !! i = Some e ->
                  resources !! i = Some (resource e)).
    { intros i e H. rewrite <- R. now apply lookup_map_Some. }
    repeat apply conj.
    + unfold broken. rewrite validateResources_filter.
      rewrite <- (checkResults_resources goto resources page) at 2.
      apply sublist_map_filter.
    + exact R.
    + exact S.
    + intros j k ej ek Hjk Hj Hk.
      destruct (sublist_lookup_pair broken results S j k ej ek Hjk Hj Hk)
        as (ij & ik & Hlt & H1 & H2).
      exists ij, ik. repeat split; auto.
    + intros e He. apply list_elem_of_lookup in He as (j & Hj).
      destruct (sublist_lookup_one broken results S j e Hj) as (i & Hi).
      exists i. split; auto.
  - intros data name out H. apply validateApiData_Normal in H as [_ ->]. split.
    + intros j k ej ek Hjk Hj Hk.
      exact (entriesFrom_ordered name data 0 j k ej ek Hjk Hj Hk).
    + intros e He. apply elem_of_invalidEntriesOf in He as (i & item & D & V & ->).
      exists i, item. repeat split; auto.
      unfold entryOf. destruct (strictEqStr name "Posts"); reflexivity.
Qed.

Lemma order_preservation_witness :
  let data := [VObj [("name", VStr "")]; VObj [("name", VStr "Bo")]; VObj []] in
  let e0 := VObj [ ("index", VNum 0); ("userName", VStr "");
                   ("reason", VArr [VStr "name is empty"]) ] in
  let e2 := VObj [ ("index", VNum 2); ("userName", VUndefined);
                   ("reason", VArr [VStr "name is empty"]) ] in
  let urls := ["https://example.test/a.css"; "https://example.test/b.js";
               "https://example.test/a.css"] in
  let ra := {| resource := "https://example.test/a.css"; status := VNum 404 |} in
  let rb := {| resource := "https://example.test/b.js"; status := VNum 500 |} in
  (validateApiData data (VStr "Users") = Normal [e0; e2]
   /\ exists ij ik, entryIndex e0 = Some ij /\ entryIndex e2 = Some ik /\ (ij < ik)%nat)
  /\ (fst (validateResources byVisit 0%nat urls) = [ra; rb]
      /\ exists ij ik : nat,
           (ij < ik)%nat
           /\ checkResults byVisit 0%nat urls !! ij = Some ra
           /\ checkResults byVisit 0%nat urls !! ik = Some rb
           /\ urls !! ij = Some (resource ra) /\ urls !! ik = Some (resource rb)).
Proof.
  intros data e0 e2 urls ra rb. split; (split; [reflexivity|]).
  - apply (proj1 (proj2 order_preservation data (VStr "Users") [e0; e2] eq_refl)
             0%nat 1%nat e0 e2); [lia | reflexivity | reflexivity].
  - destruct (proj1 order_preservation nat byVisit 0%nat urls) as (_ & _ & _ & P & _).
    apply (P 0%nat 1%nat ra rb); [lia | reflexivity | reflexivity].
Defined.

End OrderProperties.


(** ** Further properties of the resource loop *)

Module ResourceExtras.

Import ResourceValidator ResourceShape ResourceFacts.

Section Rounds.

Context {Page : Type}.
Variable goto : Page -> string -> Navigation * Page.

(** A loop whose round appends [rec res nav] returns, from any
    accumulator, the concatenation of what its rounds append. *)
Lemma loop_rounds (tryBlock : Navigation -> string -> list Entry -> Completion (list Entry))
    (rec : string -> Navigation -> list Entry) :
  (forall nav res acc,
     tryCatch (tryBlock nav res acc) (onFault res acc) = acc ++ rec res nav) ->
  forall resources page acc,
    fst (loop goto tryBlock page resources acc)
    = acc ++ flat_map (fun rn => rec (fst rn) (snd rn)) (navigations goto page resources).
Proof.
  intros R. induction resources as [|res rest IH]; intros page acc; simpl.
  - now rewrite app_nil_r.
  - destruct (goto page res) as [nav page']. rewrite R, IH. simpl.
    now rewrite app_assoc.
Qed.

Lemma loop_page (tryBlock : Navigation -> string -> list Entry -> Completion (list Entry)) :
  forall resources page acc,
    snd (loop goto tryBlock page resources acc) = pageAfter goto page resources.
Proof.
  unfold pageAfter.
  induction resources as [|res rest IH]; intros page acc; simpl; [reflexivity|].
  destruct (goto page res) as [nav page']. simpl. apply IH.
Qed.

Lemma navigations_app pre : forall page post,
  navigations goto page (pre ++ post)
  = navigations goto page pre ++ navigations goto (pageAfter goto page pre) post.
Proof.
  unfold pageAfter.
  induction pre as [|res rest IH]; intros page post; simpl; [reflexivity|].
  destruct (goto page res) as [nav page']. simpl. now rewrite IH.
Qed.

Lemma navigations_resources : forall resources page,
  map fst (navigations goto page resources) = resources.
Proof.
  induction resources as [|res rest IH]; intros page; simpl; [reflexivity|].
  destruct (goto page res) as [nav page']. simpl. now rewrite IH.
Qed.

Lemma helper_rounds page resources :
  fst (validateResources goto page resources)
  = flat_map (fun rn => recorded (fst rn) (snd rn)) (navigations goto page resources).
Proof.
  unfold validateResources.
  rewrite (loop_rounds helperTry recorded (fun nav res acc => helper_round nav res acc)).
  reflexivity.
Qed.

Lemma inline_rounds page resources :
  fst (inlineValidation goto page resources)
  = flat_map (fun rn => recordedInline (fst rn) (snd rn)) (navigations goto page resources).
Proof.
  unfold inlineValidation.
  rewrite (loop_rounds inlineTry recordedInline (fun nav res acc => inline_round nav res acc)).
  reflexivity.
Qed.

Lemma recorded_nil res nav : recorded res nav = [] <-> navigatedOk nav = true.
Proof.
  destruct nav as [|[r|]]; simpl; try (split; discriminate).
  destruct (Response.status r =? 200); split; congruence.
Qed.

Lemma helper_empty_iff (page : Page) (resources : list string) :
  fst (validateResources goto page resources) = []
  <-> Forall (fun rn => navigatedOk (snd rn) = true) (navigations goto page resources).
Proof.
  rewrite helper_rounds.
  induction (navigations goto page resources) as [|[res nav] l IH]; simpl.
  - split; auto.
  - split.
    + intros H. apply app_eq_nil in H as [H1 H2].
      constructor; [simpl; now apply (recorded_nil res) | now apply IH].
    + intros H. inversion H as [|? ? H1 H2]; subst. simpl in H1.
      apply (recorded_nil res) in H1. rewrite H1. simpl. now apply IH.
Qed.

Lemma inline_empty_iff (page : Page) (resources : list string) :
  fst (inlineValidation goto page resources) = []
  <-> fst (validateResources goto page resources) = [].
Proof.
  rewrite inline_rounds, helper_rounds.
  induction (navigations goto page resources) as [|[res nav] l IH]; simpl.
  - tauto.
  - split; intros H; apply app_eq_nil in H as [H1 H2]; apply IH in H2; rewrite H2;
      destruct nav as [|[r|]]; simpl in *; try discriminate H1; now rewrite H1.
Qed.

(** X1. [validateResources] returns the empty list exactly when every
    navigation of the loop resolved to a response with status 200. *)
Theorem no_broken_iff_all_ok (page : Page) (resources : list string) :
  fst (validateResources goto page resources) = []
  <-> Forall (fun rn => navigatedOk (snd rn) = true) (navigations goto page resources).
Proof.
  apply helper_empty_iff.
Qed.

(** X2. Every entry [validateResources] returns is about one of the input
    URLs, and its status is ["Error"], ["No Response"] or a status code
    other than 200. *)
Theorem broken_entry_invariant (page : Page) (resources : list string) (e : Entry) :
  e ∈ fst (validateResources goto page resources) ->
  resource e ∈ resources
  /\ (status e = VStr "Error" \/ status e = VStr "No Response"
      \/ exists code, status e = VNum code /\ code <> 200).
Proof.
  rewrite helper_rounds, list_elem_of_In, in_flat_map.
  intros ([res nav] & Hin & He). simpl in He.
  assert (Hres : res ∈ resources).
  { rewrite <- (navigations_resources resources page).
    apply list_elem_of_In, in_map_iff. exists (res, nav). auto. }
  destruct nav as [|[r|]]; simpl in He.
  - destruct He as [<- | []]. auto.
  - destruct (Response.status r =? 200) eqn:S; [destruct He|].
    destruct He as [<- | []]. simpl. split; [exact Hres|].
    right. right. exists (Response.status r). split; [reflexivity|].
    now apply Z.eqb_neq.
  - destruct He as [<- | []]. auto.
Qed.

(** Whatever the outcomes, the loop goes through all the URLs: the
    page [validateResources] leaves is the one obtained by navigating to
    each URL once, in order; the same holds for the inline loop. *)
Theorem loop_visits_every_url (page : Page) (resources : list string) :
  snd (validateResources goto page resources)
    = fold_left (fun p res => snd (goto p res)) resources page
  /\ snd (inlineValidation goto page resources)
    = fold_left (fun p res => snd (goto p res)) resources page.
Proof.
  split; apply loop_page.
Qed.

(** X3. Validating a list in two parts gives the same as validating it
    whole, provided the second part starts from the page the first part
    left. *)
Theorem validateResources_in_two_parts (page : Page) (pre post : list string) :
  let first := validateResources goto page pre in
  let second := validateResources goto (snd first) post in
  validateResources goto page (pre ++ post) = (fst first ++ fst second, snd second).
Proof.
  intros first second.
  assert (E : snd first = pageAfter goto page pre) by apply loop_page.
  rewrite (surjective_pairing (validateResources goto page (pre ++ post))).
  unfold second. rewrite E. f_equal.
  - apply validateResources_app.
  - unfold validateResources. rewrite !loop_page.
    unfold pageAfter. apply fold_left_app.
Qed.

(** X4. The inline loop and the helper return the same list and leave the
    same page whenever no navigation of the run resolves to [null]. *)
Theorem inline_matches_helper_without_null (page : Page) (resources : list string) :
  Forall (fun rn => resolvedNull (snd rn) = false) (navigations goto page resources) ->
  inlineValidation goto page resources = validateResources goto page resources.
Proof.
  intros H. apply inline_agrees_without_null.
  eapply Forall_impl; [exact H|].
  intros [res nav] Hn E. simpl in *. subst nav. discriminate.
Qed.

(** X5. The inline loop never records ["No Response"]: its entries have
    status ["Error"] or a status code other than 200. *)
Theorem inline_never_no_response (page : Page) (resources : list string) (e : Entry) :
  e ∈ fst (inlineValidation goto page resources) ->
  status e <> VStr "No Response"
  /\ (status e = VStr "Error" \/ exists code, status e = VNum code /\ code <> 200).
Proof.
  rewrite inline_rounds, list_elem_of_In, in_flat_map.
  intros ([res nav] & _ & He). simpl in He.
  destruct nav as [|[r|]]; simpl in He.
  - destruct He as [<- | []]. simpl. split; [discriminate | auto].
  - destruct (Response.status r =? 200) eqn:S; [destruct He|].
    destruct He as [<- | []]. simpl. split; [discriminate|].
    right. exists (Response.status r). split; [reflexivity | now apply Z.eqb_neq].
  - destruct He as [<- | []]. simpl. split; [discriminate | auto].
Qed.

(** X6. The inline loop and the helper flag the same resources, in the
    same order; they can differ only in the status they record. *)
Theorem inline_flags_same_resources (page : Page) (resources : list string) :
  map resource (fst (inlineValidation goto page resources))
  = map resource (fst (validateResources goto page resources)).
Proof.
  rewrite inline_rounds, helper_rounds.
  induction (navigations goto page resources) as [|[res nav] l IH]; simpl.
  - reflexivity.
  - rewrite !map_app, IH. f_equal.
    destruct nav as [|[r|]]; reflexivity.
Qed.

End Rounds.

Lemma broken_entry_invariant_witness :
  let e := {| resource := "https://example.test/a.css"; status := VNum 404 |} in
  resource e ∈ ["https://example.test/a.css"]
  /\ (status e = VStr "Error" \/ status e = VStr "No Response"
      \/ exists code, status e = VNum code /\ code <> 200).
Proof.
  intros e.
  apply (broken_entry_invariant (alwaysStatus 404) tt ["https://example.test/a.css"] e).
  apply list_elem_of_here.
Defined.

Lemma inline_matches_helper_without_null_witness :
  inlineValidation onlyFirst 0%nat ["https://example.test/a.js"; "https://example.test/b.js"]
  = validateResources onlyFirst 0%nat ["https://example.test/a.js"; "https://example.test/b.js"].
Proof.
  apply inline_matches_helper_without_null.
  repeat constructor.
Defined.

Lemma inline_never_no_response_witness :
  let e := {| resource := "https://example.test/a.css"; status := VStr "Error" |} in
  status e <> VStr "No Response"
  /\ (status e = VStr "Error" \/ exists code, status e = VNum code /\ code <> 200).
Proof.
  intros e.
  apply (inline_never_no_response alwaysNull tt ["https://example.test/a.css"] e).
  apply list_elem_of_here.
Defined.

End ResourceExtras.


(** ** Further properties of the record validator *)

Module ApiExtras.

Import ApiValidator Shape ApiShape TrimFacts ApiFacts.

Lemma entriesFrom_nil_iff name data : forall n,
  entriesFrom name n data = [] <-> Forall (fun item => violates name item = false) data.
Proof.
  induction data as [|x rest IH]; intros n.
  - split; auto.
  - rewrite entriesFrom_cons. unfold verdict. split.
    + intros H. apply app_eq_nil in H as [H1 H2].
      constructor; [|now apply (IH (S n))].
      destruct (violates name x); [discriminate | reflexivity].
    + intros H. inversion H as [|? ? H1 H2]; subst.
      rewrite H1. simpl. now apply IH.
Qed.

Lemma entriesFrom_app name d1 : forall n d2,
  entriesFrom name n (d1 ++ d2)
  = entriesFrom name n d1 ++ entriesFrom name (n + length d1) d2.
Proof.
  induction d1 as [|x rest IH]; intros n d2.
  - simpl. now rewrite Nat.add_0_r.
  - cbn [app length]. rewrite !entriesFrom_cons, IH, <- app_assoc.
    do 3 f_equal. lia.
Qed.

Lemma entriesFrom_length name data : forall n,
  length (entriesFrom name n data) = length (List.filter (violates name) data).
Proof.
  induction data as [|x rest IH]; intros n; [reflexivity|].
  rewrite entriesFrom_cons, length_app, IH. unfold verdict. simpl.
  destruct (violates name x); reflexivity.
Qed.

Lemma nonBlank_text v : isText v && negb (isBlank v) = nonBlankString v.
Proof. destruct v; reflexivity. Qed.

Lemma validPost_spec item :
  validPost item
  = checkable (VStr "Posts") item && negb (violates (VStr "Posts") item).
Proof.
  unfold validPost, checkable, violates, userIdNotNumber. cbn [strictEqStr String.eqb].
  change (("Posts" =? "Posts")%string) with true. cbn iota.
  rewrite <- !nonBlank_text.
  destruct (isNullish item), (typeof (field item "userId") =? "number")%string,
    (isText (field item "title")), (isBlank (field item "title")),
    (isText (field item "body")), (isBlank (field item "body")); reflexivity.
Qed.

Lemma validUser_spec item :
  validUser item
  = checkable (VStr "Users") item && negb (violates (VStr "Users") item).
Proof.
  unfold validUser, checkable, violates. cbn [strictEqStr].
  change (("Users" =? "Posts")%string) with false.
  change (("Users" =? "Users")%string) with true. cbn iota.
  rewrite <- nonBlank_text.
  destruct (isNullish item), (isText (field item "name")),
    (isBlank (field item "name")); reflexivity.
Qed.

Lemma no_entries_iff name (valid : Value -> bool) data :
  (forall item, valid item = checkable name item && negb (violates name item)) ->
  validateApiData data name = Normal [] <-> Forall (fun item => valid item = true) data.
Proof.
  intros V. rewrite validateApiData_spec, invalidEntriesOf_entriesFrom. split.
  - destruct (forallb (checkable name) data) eqn:C; [|discriminate].
    intros H. injection H as H. apply entriesFrom_nil_iff in H.
    rewrite forallb_forall in C. rewrite List.Forall_forall in *.
    intros item Hin. rewrite V, (C item Hin), (H item Hin). reflexivity.
  - intros H.
    assert (C : forallb (checkable name) data = true).
    { apply forallb_forall. rewrite List.Forall_forall in H. intros item Hin.
      specialize (H item Hin). rewrite V in H. now apply andb_true_iff in H as [H _]. }
    rewrite C. f_equal. apply entriesFrom_nil_iff.
    eapply Forall_impl; [exact H|]. intros item Hv. cbv beta in Hv. rewrite V in Hv.
    apply andb_true_iff in Hv as [_ Hv]. now apply negb_true_iff in Hv.
Qed.

(** X7. [validateApiData] raises exactly when some record of the
    collection cannot be checked under the label: the record is [null] or
    [undefined], or a field the label's rule trims is neither nullish nor a
    string. The fault is a [TypeError], and it can come after violating
    records: nothing of what was collected is returned. *)
Theorem validateApiData_faults_iff (data : list Value) (name : Value) :
  (validateApiData data name = Throw TypeError
   <-> Exists (fun item => checkable name item = false) data)
  /\ validateApiData data name <> Throw HostFault.
Proof.
  rewrite validateApiData_spec. split.
  - destruct (forallb (checkable name) data) eqn:C.
    + split; [discriminate|]. intros E. exfalso.
      rewrite forallb_forall in C. apply List.Exists_exists in E as (item & Hin & Hc).
      rewrite (C item Hin) in Hc. discriminate.
    + split; [|reflexivity]. intros _.
      apply List.Exists_exists.
      assert (N : ~ Forall (fun item => checkable name item = true) data).
      { intros F. rewrite List.Forall_forall in F.
        rewrite (proj2 (forallb_forall _ _) F) in C. discriminate. }
      apply List.neg_Forall_Exists_neg in N.
      * apply List.Exists_exists in N as (item & Hin & Hc). exists item. split; [exact Hin|].
        destruct (checkable name item); [contradiction | reflexivity].
      * intros item. destruct (checkable name item); [left | right]; congruence.
  - destruct (forallb (checkable name) data); discriminate.
Qed.

(** X8. Under "Posts", [validateApiData] returns the empty list exactly
    when every record has a numeric [userId] and a [title] and a [body]
    that are strings not made of white space only; under "Users", exactly
    when every record has such a [name]. *)
Theorem no_violations_iff_all_valid (data : list Value) :
  (validateApiData data (VStr "Posts") = Normal []
   <-> Forall (fun item => validPost item = true) data)
  /\ (validateApiData data (VStr "Users") = Normal []
      <-> Forall (fun item => validUser item = true) data).
Proof.
  split.
  - apply no_entries_iff, validPost_spec.
  - apply no_entries_iff, validUser_spec.
Qed.

(** X9. Validating a collection made of two parts: the first part is
    validated as on its own, the second with its indexes counted from the
    length of the first, and the entries are concatenated; a fault in
    either part is the fault of the whole. *)
Theorem validateApiData_in_two_parts (d1 d2 : list Value) (name : Value) :
  validateApiData (d1 ++ d2) name
  = let! out1 := validateApiData d1 name in
    let! out2 := forEachFrom (callback name) d2 (length d1) [] in
    Normal (out1 ++ out2).
Proof.
  rewrite !validateApiData_spec, forEachFrom_spec, !invalidEntriesOf_entriesFrom.
  rewrite forallb_app, entriesFrom_app.
  destruct (forallb (checkable name) d1); [|reflexivity].
  destruct (forallb (checkable name) d2); reflexivity.
Qed.

(** X10. When [validateApiData] returns, the number of entries is the
    number of records that violate the rule of the label, hence at most
    the number of records. *)
Theorem entries_count (data : list Value) (name : Value) (out : list Value) :
  validateApiData data name = Normal out ->
  length out = length (List.filter (violates name) data)
  /\ (length out <= length data)%nat.
Proof.
  intros H. apply validateApiData_Normal in H as [_ ->].
  rewrite invalidEntriesOf_entriesFrom, entriesFrom_length.
  split; [reflexivity | apply List.filter_length_le].
Qed.

Lemma entries_count_witness :
  let data := [VObj [("name", VStr "Ann")]; VObj []; VObj [("name", VNull)]] in
  exists out,
    validateApiData data (VStr "Users") = Normal out
    /\ length out = 2%nat /\ (length out <= 3)%nat.
Proof.
  intros data.
  destruct (validateApiData data (VStr "Users")) as [out|] eqn:E; [|discriminate E].
  exists out. split; [reflexivity|].
  exact (entries_count data (VStr "Users") out E).
Defined.

(** X11. No entry is logged without a reason: under "Posts" an entry has
    between one and three reasons, under "Users" exactly one. *)
Theorem reasons_never_empty (data : list Value) (name : Value) (out : list Value) (e : Value) :
  validateApiData data name = Normal out -> e ∈ out ->
  exists reason,
    reasonsOf e = Some reason
    /\ (1 <= length reason <= 3)%nat
    /\ (name = VStr "Users" -> reason = [VStr "name is empty"]).
Proof.
  intros H He. apply validateApiData_Normal in H as [_ ->].
  apply elem_of_invalidEntriesOf in He as (i & item & _ & V & ->).
  unfold entryOf, violates in *.
  destruct (strictEqStr name "Posts") eqn:P.
  - exists (postsReasons item). split; [reflexivity|]. split.
    + unfold postsReasons.
      destruct (userIdNotNumber (field item "userId")),
        (isBlank (field item "title")), (isBlank (field item "body"));
        try discriminate V; simpl; lia.
    + intros ->. discriminate P.
  - exists [VStr "name is empty"]. repeat split; simpl; lia.
Qed.

Lemma reasons_never_empty_witness :
  let data := [VObj [("userId", VNull); ("title", VStr "t")]] in
  let e := VObj [ ("index", VNum 0); ("userId", VNull); ("title", VStr "t");
                  ("body", VUndefined);
                  ("reason", VArr [VStr "userId is not a number"; VStr "body is empty"]) ] in
  exists reason,
    reasonsOf e = Some reason
    /\ (1 <= length reason <= 3)%nat
    /\ (VStr "Posts" = VStr "Users" -> reason = [VStr "name is empty"]).
Proof.
  intros data e.
  apply (reasons_never_empty data (VStr "Posts") [e] e eq_refl).
  apply list_elem_of_here.
Defined.

End ApiExtras.


(** ** Further properties of the audit scenario *)

Module AuditExtras.

Import AuditScenario AuditShape.

(** [closeBrowserContextSafely] never raises: whatever
    [browserContext.close()] does, the helper returns, having called
    [close] once and logged to the console when the call raised. *)
Theorem close_safely_never_raises (w : World) (tr : list Event) :
  closeBrowserContextSafely w tr = (Normal tt, tr ++ closeEvents w).
Proof.
  unfold closeBrowserContextSafely, tryCatch, call, closeEvents.
  destruct (contextClose w) as [[]|e]; simpl.
  - reflexivity.
  - now rewrite <- app_assoc.
Qed.

(** X12. The audit scenario passes exactly when the import, the launch,
    the directory step and the report write return and the audit engine
    returns a result with all four categories; whether closing the context
    raises does not matter. *)
Theorem audit_passes_iff (w : World) :
  fst (auditScenario w []) = Normal tt
  <-> reachesTry w && oracleComplete w && returned (writeFileSync w) = true.
Proof.
  destruct w as [imp lau ex mk lh wr cl].
  unfold reachesTry, directoryEnsured, oracleComplete. simpl.
  destruct imp as [[]|?], lau as [[]|?], ex, mk as [[]|?], wr as [[]|?], cl as [[]|?];
    destruct lh as [[[p|] [s|] [a|] [b|]]|?]; simpl; split; intros H;
    solve [reflexivity | discriminate H].
Qed.

(** X13. When the audit engine raises in a run that got to the [try]
    block, the scenario attaches "Lighthouse Error", closes the context
    and ends with the engine's fault, unchanged. *)
Theorem oracle_fault_reported_and_rethrown (w : World) (e : Error) :
  reachesTry w = true -> lighthouse w = Throw e ->
  auditScenario w []
  = (Throw e,
     setupEvents w
     ++ [Ev RunLighthouse false; Ev (Attach "Lighthouse Error") true]
     ++ closeEvents w).
Proof.
  destruct w as [imp lau ex mk lh wr cl].
  unfold reachesTry, directoryEnsured, setupEvents, closeEvents. simpl.
  intros R ->.
  destruct imp as [[]|?], lau as [[]|?], ex, mk as [[]|?], cl as [[]|?];
    simpl in R; try discriminate R; reflexivity.
Qed.

Lemma oracle_fault_reported_and_rethrown_witness :
  auditScenario oracleAndCloseFail []
  = (Throw HostFault,
     [ Ev ImportLighthouse true; Ev LaunchPersistentContext true;
       Ev ExistsSync true; Ev MkdirSync true; Ev RunLighthouse false;
       Ev (Attach "Lighthouse Error") true; Ev ContextClose false;
       Ev ConsoleError true ]).
Proof.
  exact (oracle_fault_reported_and_rethrown oracleAndCloseFail HostFault eq_refl eq_refl).
Defined.

(** X14. "Lighthouse Error" is attached exactly in the runs that get to
    the [try] block and fail in it (the engine raises, the report cannot be
    written, or a category is missing). *)
Theorem error_attached_iff_try_fails (w : World) :
  existsb isErrorAttachment (traceOf w)
  = reachesTry w && negb (oracleComplete w && returned (writeFileSync w)).
Proof.
  destruct w as [imp lau ex mk lh wr cl].
  unfold reachesTry, directoryEnsured, oracleComplete, traceOf. simpl.
  destruct imp as [[]|?], lau as [[]|?], ex, mk as [[]|?], wr as [[]|?], cl as [[]|?];
    destruct lh as [[[p|] [s|] [a|] [b|]]|?]; reflexivity.
Qed.

(** X15. A passing run makes these calls after the setup, in this order:
    the audit, the report write, the attachment of the report twice (once
    by [saveReport], once by the test), the attachment of the scores, and
    the closing of the context. *)
Theorem passing_run_trace (w : World) :
  fst (auditScenario w []) = Normal tt ->
  traceOf w
  = setupEvents w
    ++ [ Ev RunLighthouse true; Ev WriteFileSync true;
         Ev (Attach "Lighthouse Report") true; Ev (Attach "Lighthouse Report") true;
         Ev (Attach "Lighthouse Scores") true ]
    ++ closeEvents w.
Proof.
  destruct w as [imp lau ex mk lh wr cl].
  unfold setupEvents, closeEvents, traceOf. simpl.
  destruct imp as [[]|?], lau as [[]|?], ex, mk as [[]|?], wr as [[]|?], cl as [[]|?];
    destruct lh as [[[p|] [s|] [a|] [b|]]|?]; simpl; intros H;
    solve [reflexivity | discriminate H].
Qed.

Lemma passing_run_trace_witness :
  traceOf allGood
  = [ Ev ImportLighthouse true; Ev LaunchPersistentContext true; Ev ExistsSync true;
      Ev RunLighthouse true; Ev WriteFileSync true;
      Ev (Attach "Lighthouse Report") true; Ev (Attach "Lighthouse Report") true;
      Ev (Attach "Lighthouse Scores") true; Ev ContextClose true ].
Proof.
  exact (passing_run_trace allGood eq_refl).
Defined.

(** X16. In every run that got past the directory step, the context's
    [close] is called after the launch, and it is the last thing the
    scenario does but for the console message of a failed close. *)
Theorem context_closed_once_try_entered (w : World) :
  reachesTry w = true ->
  closedAfterLaunch (traceOf w) = true
  /\ exists before, traceOf w = setupEvents w ++ before ++ closeEvents w.
Proof.
  intros R. split.
  - apply AuditFacts.closed_once_directory_ensured.
    unfold reachesTry in R. now apply andb_true_iff in R as [_ R].
  - destruct w as [imp lau ex mk lh wr cl].
    unfold reachesTry, directoryEnsured, setupEvents, closeEvents, traceOf in *.
    simpl in *.
    destruct imp as [[]|?], lau as [[]|?], ex, mk as [[]|?]; simpl in R;
      try discriminate R;
      destruct lh as [[[p|] [s|] [a|] [b|]]|?], wr as [[]|?], cl as [[]|?]; simpl;
      first [ exists [Ev RunLighthouse false; Ev (Attach "Lighthouse Error") true];
              reflexivity
            | exists [Ev RunLighthouse true; Ev WriteFileSync false;
                      Ev (Attach "Lighthouse Error") true];
              reflexivity
            | exists [Ev RunLighthouse true; Ev WriteFileSync true;
                      Ev (Attach "Lighthouse Report") true;
                      Ev (Attach "Lighthouse Report") true;
                      Ev (Attach "Lighthouse Error") true];
              reflexivity
            | exists [Ev RunLighthouse true; Ev WriteFileSync true;
                      Ev (Attach "Lighthouse Report") true;
                      Ev (Attach "Lighthouse Report") true;
                      Ev (Attach "Lighthouse Scores") true];
              reflexivity ].
Qed.

Lemma context_closed_once_try_entered_witness :
  closedAfterLaunch (traceOf oracleAndCloseFail) = true
  /\ exists before,
       traceOf oracleAndCloseFail
       = setupEvents oracleAndCloseFail ++ before ++ closeEvents oracleAndCloseFail.
Proof.
  exact (context_closed_once_try_entered oracleAndCloseFail eq_refl).
Defined.

End AuditExtras.


(** ** Properties of the resource collection *)

Module CollectorFacts.

Import Collector.

Lemma collectFrom_cons el rest :
  collectFrom (el :: rest)
  = (match srcOrHref el with
     | Some s => if String.eqb s "" then [] else [s]
     | None => []
     end) ++ collectFrom rest.
Proof.
  unfold collectFrom. simpl.
  destruct (srcOrHref el) as [s|]; simpl; [|reflexivity].
  destruct (String.eqb s ""); reflexivity.
Qed.

(** X17. Every URL [collectResources] returns is a non-empty string, and it
    is the [src] of a matched element, or the [href] of a matched element
    whose [src] is undefined or empty. *)
Theorem collected_urls_come_from_elements (matched : list Element) (u : string) :
  u ∈ collectFrom matched ->
  u <> ""
  /\ exists el, el ∈ matched
       /\ (src el = Some u
           \/ ((src el = None \/ src el = Some "") /\ href el = Some u)).
Proof.
  induction matched as [|el rest IH]; intros H.
  - inversion H.
  - rewrite collectFrom_cons in H. apply elem_of_app in H as [H | H].
    + destruct (srcOrHref el) as [s|] eqn:E; [|inversion H].
      destruct (String.eqb s "") eqn:N; [inversion H|].
      apply list_elem_of_singleton in H. subst s.
      apply String.eqb_neq in N. split; [exact N|].
      exists el. split; [apply list_elem_of_here|].
      unfold srcOrHref in E. destruct (src el) as [s|]; [|auto].
      destruct (String.eqb s "") eqn:S.
      * apply String.eqb_eq in S. subst s. auto.
      * left. exact E.
    + destruct (IH H) as (Hn & el' & Hin & Hu). split; [exact Hn|].
      exists el'. split; [now apply list_elem_of_further | exact Hu].
Qed.

Lemma collected_urls_come_from_elements_witness :
  let matched := [ {| src := Some ""; href := Some "https://example.test/a.css" |};
                   {| src := Some "https://example.test/b.js"; href := None |} ] in
  "https://example.test/a.css" <> ""
  /\ exists el, el ∈ matched
       /\ (src el = Some "https://example.test/a.css"
           \/ ((src el = None \/ src el = Some "")
               /\ href el = Some "https://example.test/a.css")).
Proof.
  intros matched.
  apply (collected_urls_come_from_elements matched "https://example.test/a.css").
  apply list_elem_of_here.
Defined.

(** The collection goes element by element: the URLs of a document
    made of two parts are those of the first part followed by those of the
    second, so order is kept and repeated URLs are kept; and an element
    gives at most one URL. *)
Theorem collect_keeps_order_and_duplicates (m1 m2 : list Element) :
  collectFrom (m1 ++ m2) = collectFrom m1 ++ collectFrom m2
  /\ (length (collectFrom m1) <= length m1)%nat.
Proof.
  split.
  - induction m1 as [|el rest IH]; [reflexivity|].
    cbn [app]. rewrite !collectFrom_cons, IH, app_assoc. reflexivity.
  - induction m1 as [|el rest IH]; [simpl; lia|].
    rewrite collectFrom_cons, length_app. simpl.
    destruct (srcOrHref el) as [s|]; [destruct (String.eqb s "")|]; simpl; lia.
Qed.

End CollectorFacts.

(** ** Properties of [fetchApiData] and of the record validation test *)

Module ApiScenarioFacts.

Import ApiValidator Report ApiScenario.

Section Fetch.

Variable stringify : Value -> string.
Variable fetch : string -> Completion HttpResponse.

Lemma fetch_returns_iff (url label : string) (testInfo testInfo' : list Attachment)
    (data : Value) :
  fetchApiData stringify fetch url label testInfo = (Returned data, testInfo')
  <-> exists response,
        fetch url = Normal response
        /\ 200 <= status response <= 299
        /\ json response = Normal data
        /\ testInfo' = testInfo ++ [{| label := "Fetched Data from " +:+ label;
                                       body := Some (stringify data); path := None;
                                       contentType := "application/json" |}].
Proof.
  unfold fetchApiData, andThen, lift, attach, ret, raise, ok.
  destruct (fetch url) as [response|e]; simpl.
  - destruct (200 <=? status response) eqn:L; simpl;
      [destruct (status response <=? 299) eqn:U; simpl|].
    + destruct (json response) as [d|e] eqn:J.
      * split.
        -- intros H. injection H as <- <-. exists response.
           repeat split; auto; lia.
        -- intros (r & Hr & _ & Hj & ->). injection Hr as <-.
           rewrite J in Hj. injection Hj as <-. reflexivity.
      * split; [discriminate|].
        intros (r & Hr & _ & Hj & _). injection Hr as <-. congruence.
    + split; [discriminate|].
      intros (r & Hr & Hs & _). injection Hr as <-. lia.
    + split; [discriminate|].
      intros (r & Hr & Hs & _). injection Hr as <-. lia.
  - split; [discriminate|]. intros (r & Hr & _). discriminate.
Qed.

(** X18. [fetchApiData] returns exactly when [fetch] resolves to a
    response with a status from 200 to 299 whose body decodes; it returns
    the decoded data, having attached it once, as JSON, under
    "Fetched Data from <label>". *)
Theorem fetchApiData_returns_iff (url label : string) (testInfo testInfo' : list Attachment)
    (data : Value) :
  fetchApiData stringify fetch url label testInfo = (Returned data, testInfo')
  <-> exists response,
        fetch url = Normal response
        /\ 200 <= status response <= 299
        /\ json response = Normal data
        /\ testInfo' = testInfo ++ [{| label := "Fetched Data from " +:+ label;
                                       body := Some (stringify data); path := None;
                                       contentType := "application/json" |}].
Proof.
  apply fetch_returns_iff.
Qed.

(** X19. When [fetchApiData] raises, either [fetch] or the decoding of the
    body raised, and then nothing was attached; or the response had a
    status outside 200 to 299, and then one "Fetch Error" attachment was
    added, as plain text, whose body is the message of the error thrown,
    which names the label and the status. The data is never attached. *)
Theorem fetchApiData_raises (url label : string) (testInfo testInfo' : list Attachment)
    (t : Thrown) :
  fetchApiData stringify fetch url label testInfo = (Raised t, testInfo') ->
  (testInfo' = testInfo
   /\ exists e, t = Native e
        /\ (fetch url = Throw e
            \/ exists response, fetch url = Normal response /\ json response = Throw e))
  \/ (exists response message,
        fetch url = Normal response
        /\ ~ (200 <= status response <= 299)
        /\ message = "Failed to fetch data from " +:+ label +:+ ". Status: "
                     +:+ numberToString (status response)
        /\ t = ErrorObject message
        /\ testInfo' = testInfo ++ [{| label := "Fetch Error"; body := Some message;
                                       path := None; contentType := "text/plain" |}]).
Proof.
  unfold fetchApiData, andThen, lift, attach, ret, raise, ok.
  destruct (fetch url) as [response|e]; simpl.
  - destruct ((200 <=? status response) && (status response <=? 299)) eqn:O; simpl.
    + destruct (json response) as [d|e] eqn:J; [discriminate|].
      intros H. injection H as <- <-. left. split; [reflexivity|].
      exists e. split; [reflexivity|]. right. eauto.
    + intros H. injection H as <- <-. right.
      exists response. eexists. repeat split; try reflexivity.
      intros [L U]. apply andb_false_iff in O as [O | O];
        [apply Z.leb_gt in O | apply Z.leb_gt in O]; lia.
  - intros H. injection H as <- <-. left. split; [reflexivity|]. eauto.
Qed.

End Fetch.

Lemma fetchApiData_raises_witness :
  let w := answering 404 VNull in
  let message := "Failed to fetch data from Posts. Status: 404" in
  fetchApiData sampleStringify (fetch w) (url posts) (name posts) []
  = (Raised (ErrorObject message),
     [{| label := "Fetch Error"; body := Some message; path := None;
         contentType := "text/plain" |}])
  /\ exists response,
       fetch w (url posts) = Normal response /\ ~ (200 <= status response <= 299).
Proof.
  intros w message. split; [reflexivity|].
  destruct (fetchApiData_raises sampleStringify (fetch w) (url posts) (name posts) [] _ _ eq_refl)
    as [(_ & e & He & _) | (response & m & Hf & Hs & _)].
  - discriminate He.
  - exists response. split; assumption.
Defined.

Section Test.

Variable stringify : Value -> string.
Variable reportsDir : string.
Variable pathJoin : string -> string -> string.
Variable toLowerCase : string -> string.
Variable w : World.

Let run (ep : Endpoint) : Result unit * Store :=
  apiTest stringify reportsDir pathJoin toLowerCase w ep emptyStore.
Let logFile (ep : Endpoint) : string :=
  logFilePath reportsDir pathJoin toLowerCase ep.
Let madeDirs : list string := if existsSync w then [] else [reportsDir].

(** The test, once the data is fetched. *)
Lemma apiTest_fetched ep response data :
  directoryReady w = true ->
  fetch w (url ep) = Normal response -> 200 <= status response <= 299 ->
  json response = Normal data ->
  run ep
  = match validate data (name ep) with
    | Throw e =>
        (Raised (Native e),
         {| files := ∅; dirs := madeDirs;
            testInfo := [fetchedAttachment stringify ep data] |})
    | Normal entries =>
        match writeOutcome w with
        | Throw e =>
            (Raised (Native e),
             {| files := ∅; dirs := madeDirs;
                testInfo := [fetchedAttachment stringify ep data] |})
        | Normal _ =>
            (match entries with
             | [] => Returned tt
             | _ :: _ => Raised ExpectationFailed
             end,
             {| files := {[ logFile ep := stringify (VArr entries) ]};
                dirs := madeDirs;
                testInfo := [fetchedAttachment stringify ep data] |})
        end
    end.
Proof.
  intros D F S J.
  assert (O : ok response = true).
  { unfold ok. apply andb_true_iff. split; apply Z.leb_le; lia. }
  unfold run, logFile, madeDirs, apiTest, directoryReady in *.
  unfold andThen, detached, ensureDirectoryExists, onReport, fetchApiData, lift,
    attach, attachFileUnawaited, ret, raise, saveAndAttachLog, writeFileSync,
    expectEmpty, andThen.
  destruct (existsSync w); [|destruct (mkdirSync w) as [[]|?]; [|discriminate D]];
    cbn; rewrite F; cbn; rewrite O, J; cbn;
    (destruct (validate data (name ep)) as [entries|e]; [|reflexivity]);
    (destruct (writeOutcome w) as [[]|e]; [|reflexivity]);
    destruct entries; reflexivity.
Qed.

(** X20. In a run where the directory step does not raise, the test
    passes exactly when the endpoint answers with a status from 200 to 299
    and a body that decodes to an array, [validateApiData] returns no entry
    for it, and the log can be written. *)
Theorem apiTest_passes_iff (ep : Endpoint) :
  directoryReady w = true ->
  (fst (run ep) = Returned tt
   <-> exists response items,
         fetch w (url ep) = Normal response
         /\ 200 <= status response <= 299
         /\ json response = Normal (VArr items)
         /\ validateApiData items (VStr (name ep)) = Normal []
         /\ writeOutcome w = Normal tt).
Proof.
  intros D. split.
  - intros H.
    destruct (fst (onReport (fetchApiData stringify (fetch w) (url ep) (name ep))
                     {| files := ∅; dirs := madeDirs; testInfo := [] |})) eqn:Q.
    2:{ exfalso. revert H Q. unfold run, apiTest, madeDirs.
        unfold andThen at 1. unfold detached, ensureDirectoryExists, directoryReady in *.
        destruct (existsSync w); cbn.
        - unfold andThen at 1.
          destruct (onReport _ _) as [[?|?] ?]; cbn; congruence.
        - destruct (mkdirSync w) as [[]|?]; [|discriminate D]. cbn.
          unfold andThen at 1.
          destruct (onReport _ _) as [[?|?] ?]; cbn; congruence. }
    unfold onReport in Q. cbn [testInfo] in Q.
    destruct (fetchApiData stringify (fetch w) (url ep) (name ep) []) as [r ti] eqn:F.
    cbn in Q. subst r.
    apply fetch_returns_iff in F as (response & Hf & Hs & Hj & _).
    rewrite (apiTest_fetched ep response a D Hf Hs Hj) in H.
    exists response.
    destruct a as [| | | | |items|]; cbn in H; try discriminate H.
    exists items.
    destruct (validateApiData items (VStr (name ep))) as [entries|e]; [|discriminate H].
    destruct (writeOutcome w) as [[]|e]; [|discriminate H].
    destruct entries; [|discriminate H]. auto.
  - intros (response & items & Hf & Hs & Hj & Hv & Hw).
    rewrite (apiTest_fetched ep response (VArr items) D Hf Hs Hj). cbn.
    rewrite Hv, Hw. reflexivity.
Qed.


(** X22. In such a run, when the fetched data cannot be validated (it is
    not an array, or [validateApiData] raises on it) or the log cannot be
    written, the test ends with that fault, no file is recorded and the
    report holds the fetched data only. *)
Theorem no_log_when_validation_or_write_raises (ep : Endpoint)
    (response : HttpResponse) (data : Value) (e : Error) :
  directoryReady w = true ->
  fetch w (url ep) = Normal response -> 200 <= status response <= 299 ->
  json response = Normal data ->
  validate data (name ep) = Throw e
  \/ ((exists entries, validate data (name ep) = Normal entries)
      /\ writeOutcome w = Throw e) ->
  run ep
  = (Raised (Native e),
     {| files := ∅; dirs := madeDirs;
        testInfo := [fetchedAttachment stringify ep data] |}).
Proof.
  intros D Hf Hs Hj H.
  rewrite (apiTest_fetched ep response data D Hf Hs Hj).
  destruct H as [-> | [(entries & ->) ->]]; reflexivity.
Qed.

End Test.

Lemma apiTest_passes_iff_witness :
  let w := answering 200 (VArr [VObj [("userId", VNum 1); ("title", VStr "a");
                                      ("body", VStr "b")]]) in
  fst (apiTest sampleStringify "/work/reports" sampleJoin sampleLower w posts emptyStore)
  = Returned tt.
Proof.
  intros w.
  apply (proj2 (apiTest_passes_iff sampleStringify "/work/reports" sampleJoin
                  sampleLower w posts eq_refl)).
  eexists. eexists. repeat split; try reflexivity; cbn; lia.
Defined.


Lemma no_log_when_validation_or_write_raises_witness :
  let w := answering 200 (VObj [("error", VStr "down")]) in
  apiTest sampleStringify "/work/reports" sampleJoin sampleLower w posts emptyStore
  = (Raised (Native TypeError),
     {| files := ∅; dirs := [];
        testInfo := [fetchedAttachment sampleStringify posts
                       (VObj [("error", VStr "down")])] |}).
Proof.
  intros w.
  apply (no_log_when_validation_or_write_raises sampleStringify "/work/reports"
           sampleJoin sampleLower w posts
           {| status := 200; json := Normal (VObj [("error", VStr "down")]) |}
           _ TypeError eq_refl eq_refl
           (conj (Z.le_refl 200) (Zle_bool_imp_le 200 299 eq_refl)) eq_refl).
  left. reflexivity.
Defined.

End ApiScenarioFacts.

(** ** Properties of the resource validation test *)

Module ResourceScenarioFacts.

Import ResourceValidator ResourceShape Collector Report ResourceScenario.

Section Test.

Context {Page : Type}.
Variable stringify : Value -> string.
Variable messageOf : Thrown -> string.
Variable goto : Page -> string -> Navigation * Page.
Variable evaluate : Page -> Completion (list Element).

Let test (url : string) (page : Page) (testInfo : list Attachment) :=
  resourceTest stringify messageOf goto evaluate url (page, testInfo).

(** The test, once the page is loaded and its resources are collected. *)
Lemma resourceTest_collected url page testInfo response matched :
  fst (goto page url) = Resolves response ->
  evaluate (snd (goto page url)) = Normal matched ->
  let resources := collectFrom matched in
  let run := validateResources goto (snd (goto page url)) resources in
  test url page testInfo
  = match fst run with
    | [] =>
        (Returned tt,
         (snd run, testInfo ++ [linkedAttachment stringify resources]))
    | _ :: _ =>
        (Raised ExpectationFailed,
         (snd run,
          testInfo ++ [ linkedAttachment stringify resources;
                        brokenAttachment stringify (fst run);
                        brokenAttachment stringify (fst run);
                        errorAttachment messageOf ExpectationFailed ]))
    end.
Proof.
  intros G E resources run. unfold test, resourceTest, resourceTry, resourceCatch.
  unfold tryCatch, andThen, navigate, collect, validate, attachBroken, report,
    attachToTestReport, attach, expectEmpty, lift, ret, raise, collectResources.
  cbn [fst snd]. destruct (goto page url) as [nav page1]. cbn [fst snd] in *.
  subst nav. cbn. rewrite E. cbn.
  fold resources. subst run.
  destruct (validateResources goto page1 resources) as [broken page2]. cbn.
  destruct broken as [|b rest]; cbn.
  - reflexivity.
  - rewrite <- !app_assoc. reflexivity.
Qed.

(** X23. The test passes exactly when the page loads, its resources can
    be collected, and every navigation to a collected resource resolves to
    a response with status 200. *)
Theorem resourceTest_passes_iff (url : string) (page : Page) (testInfo : list Attachment) :
  fst (test url page testInfo) = Returned tt
  <-> exists response matched,
        fst (goto page url) = Resolves response
        /\ evaluate (snd (goto page url)) = Normal matched
        /\ Forall (fun rn => navigatedOk (snd rn) = true)
             (navigations goto (snd (goto page url)) (collectFrom matched)).
Proof.
  split.
  - intros H.
    destruct (fst (goto page url)) as [|response] eqn:G.
    { exfalso. revert H. unfold test, resourceTest, resourceTry.
      unfold tryCatch, andThen, navigate, lift. cbn [fst snd].
      destruct (goto page url) as [nav page1]. cbn in G. subst nav. cbn. discriminate. }
    destruct (evaluate (snd (goto page url))) as [matched|e] eqn:E.
    2:{ exfalso. revert H. unfold test, resourceTest, resourceTry.
        unfold tryCatch, andThen, navigate, collect, lift, collectResources.
        cbn [fst snd]. destruct (goto page url) as [nav page1]. cbn in G, E.
        subst nav. cbn. rewrite E. cbn. discriminate. }
    exists response, matched. repeat split; auto.
    rewrite (resourceTest_collected url page testInfo response matched G E) in H.
    apply ResourceExtras.helper_empty_iff.
    destruct (fst (validateResources goto (snd (goto page url)) (collectFrom matched)));
      [reflexivity | discriminate H].
  - intros (response & matched & G & E & A).
    rewrite (resourceTest_collected url page testInfo response matched G E).
    apply ResourceExtras.helper_empty_iff in A. rewrite A. reflexivity.
Qed.

(** X24. When the page is loaded and a collected resource is broken, the
    test attaches the linked resources, then the broken resources twice
    (the test has the same conditional attachment two times), then
    "Validation Error" with the message of the failed [expect], and ends
    with that error; the page is left where the last check put it. *)
Theorem broken_resources_attached_twice (url : string) (page : Page)
    (testInfo : list Attachment) (response : option Response.t) (matched : list Element) :
  fst (goto page url) = Resolves response ->
  evaluate (snd (goto page url)) = Normal matched ->
  let resources := collectFrom matched in
  let run := validateResources goto (snd (goto page url)) resources in
  fst run <> [] ->
  test url page testInfo
  = (Raised ExpectationFailed,
     (snd run,
      testInfo ++ [ linkedAttachment stringify resources;
                    brokenAttachment stringify (fst run);
                    brokenAttachment stringify (fst run);
                    errorAttachment messageOf ExpectationFailed ])).
Proof.
  intros G E resources run N.
  rewrite (resourceTest_collected url page testInfo response matched G E).
  fold resources. fold run. destruct (fst run); [contradiction | reflexivity].
Qed.

(** X25. Whenever the test fails, the error it ends with is the one its
    [catch] block attached: the last attachment is "Validation Error", as
    plain text, with the message of that error. A passing test attaches
    the linked resources and nothing else. *)
Theorem failure_is_attached_and_rethrown (url : string) (page : Page)
    (testInfo : list Attachment) :
  match fst (test url page testInfo) with
  | Raised t =>
      exists before,
        snd (snd (test url page testInfo))
        = testInfo ++ before ++ [errorAttachment messageOf t]
  | Returned _ =>
      exists resources,
        snd (snd (test url page testInfo))
        = testInfo ++ [linkedAttachment stringify resources]
  end.
Proof.
  destruct (fst (goto page url)) as [|response] eqn:G.
  { unfold test, resourceTest, resourceTry, resourceCatch.
    unfold tryCatch, andThen, navigate, lift, report, attachToTestReport, attach, raise.
    cbn [fst snd]. destruct (goto page url) as [nav page1]. cbn in G. subst nav. cbn.
    exists []. reflexivity. }
  destruct (evaluate (snd (goto page url))) as [matched|e] eqn:E.
  - rewrite (resourceTest_collected url page testInfo response matched G E).
    destruct (fst (validateResources goto (snd (goto page url)) (collectFrom matched)))
      as [|b rest]; cbn.
    + eauto.
    + eexists [_; _; _]. reflexivity.
  - unfold test, resourceTest, resourceTry, resourceCatch.
    unfold tryCatch, andThen, navigate, collect, lift, collectResources, report,
      attachToTestReport, attach, raise.
    cbn [fst snd]. destruct (goto page url) as [nav page1]. cbn in G, E.
    subst nav. cbn. rewrite E. cbn. exists []. reflexivity.
Qed.

End Test.

Lemma resourceTest_passes_iff_witness :
  fst (resourceTest sampleStringifyValue sampleMessage (styledPage 200) oneStylesheet
         "https://example.test/" (tt, []))
  = Returned tt.
Proof.
  apply (proj2 (resourceTest_passes_iff sampleStringifyValue sampleMessage (styledPage 200)
                  oneStylesheet "https://example.test/" tt [])).
  eexists. eexists. repeat split; repeat constructor.
Defined.

Lemma broken_resources_attached_twice_witness :
  map label
    (snd (snd (resourceTest sampleStringifyValue sampleMessage (styledPage 404)
                 oneStylesheet "https://example.test/" (tt, []))))
  = ["Linked Resources"; "Broken Resources"; "Broken Resources"; "Validation Error"].
Proof.
  rewrite (broken_resources_attached_twice sampleStringifyValue sampleMessage
             (styledPage 404) oneStylesheet "https://example.test/" tt []
             (Some {| Response.status := 200 |})
             [{| src := None; href := Some "https://example.test/a.css" |}]
             eq_refl eq_refl).
  - reflexivity.
  - discriminate.
Defined.

End ResourceScenarioFacts.


(** ** The tests of the second test file against those of the first *)

Module InlineScenarioFacts.

Import AuditScenario AuditShape InlineAudit.

(** X26. The outcome of the audit test that closes the context through
    [closeBrowserContextSafely] does not depend on what
    [browserContext.close()] does. *)
Theorem audit_outcome_independent_of_close (w : World) (outcome : Completion unit) :
  fst (auditScenario (withClose outcome w) []) = fst (auditScenario w []).
Proof.
  destruct w as [imp lau ex mk lh wr cl]. unfold withClose. simpl.
  destruct imp as [[]|?], lau as [[]|?], ex, mk as [[]|?], wr as [[]|?],
    cl as [[]|?], outcome as [[]|?];
    destruct lh as [[[p|] [s|] [a|] [b|]]|?]; reflexivity.
Qed.

(** X27. In the audit test of the second file, which awaits
    [browserContext.close()] in its [finally] block, a run that got to the
    [try] block and in which closing raises ends with the fault of the
    close, whatever happened in the [try] block. *)
Theorem inline_audit_ends_with_close_fault (w : World) (e : Error) :
  reachesTry w = true -> contextClose w = Throw e ->
  fst (inlineAuditScenario w []) = Throw e.
Proof.
  destruct w as [imp lau ex mk lh wr cl].
  unfold reachesTry, directoryEnsured. simpl. intros R ->.
  destruct imp as [[]|?], lau as [[]|?], ex, mk as [[]|?], wr as [[]|?];
    simpl in R; try discriminate R;
    destruct lh as [[[p|] [s|] [a|] [b|]]|?]; reflexivity.
Qed.

Lemma inline_audit_ends_with_close_fault_witness :
  fst (inlineAuditScenario (withClose (Throw TypeError) allGood) []) = Throw TypeError
  /\ fst (auditScenario (withClose (Throw TypeError) allGood) []) = Normal tt.
Proof.
  split.
  - exact (inline_audit_ends_with_close_fault (withClose (Throw TypeError) allGood)
             TypeError eq_refl eq_refl).
  - reflexivity.
Defined.

(** X28. The audit test of the second file passes exactly when the test
    of the first file passes and closing the context returns. *)
Theorem inline_audit_passes_iff (w : World) :
  fst (inlineAuditScenario w []) = Normal tt
  <-> fst (auditScenario w []) = Normal tt /\ returned (contextClose w) = true.
Proof.
  destruct w as [imp lau ex mk lh wr cl]. simpl.
  destruct imp as [[]|?], lau as [[]|?], ex, mk as [[]|?], wr as [[]|?], cl as [[]|?];
    destruct lh as [[[p|] [s|] [a|] [b|]]|?]; simpl; split;
    solve [ intros H; discriminate H
          | intros [H1 H2]; first [discriminate H1 | discriminate H2]
          | intros _; split; reflexivity
          | intros _; reflexivity ].
Qed.

End InlineScenarioFacts.

Module InlineResourceFacts.

Import ResourceValidator ResourceShape Collector Report ResourceScenario.

Section Test.

Context {Page : Type}.
Variable stringify : Value -> string.
Variable messageOf : Thrown -> string.
Variable goto : Page -> string -> Navigation * Page.
Variable evaluate : Page -> Completion (list Element).

Let inlineTest (url : string) (page : Page) (testInfo : list Attachment) :=
  inlineResourceTest stringify messageOf goto evaluate url (page, testInfo).

Lemma inlineTest_collected url page testInfo response matched :
  fst (goto page url) = Resolves response ->
  evaluate (snd (goto page url)) = Normal matched ->
  let resources := collectFrom matched in
  let run := inlineValidation goto (snd (goto page url)) resources in
  inlineTest url page testInfo
  = match fst run with
    | [] =>
        (Returned tt,
         (snd run, testInfo ++ [linkedAttachment stringify resources]))
    | _ :: _ =>
        (Raised ExpectationFailed,
         (snd run,
          testInfo ++ [ linkedAttachment stringify resources;
                        brokenAttachment stringify (fst run);
                        errorAttachment messageOf ExpectationFailed ]))
    end.
Proof.
  intros G E resources run.
  unfold inlineTest, inlineResourceTest, inlineResourceTry, inlineResourceCatch.
  unfold tryCatch, andThen, navigate, collect, inlineCheck, report,
    attach, expectEmpty, lift, ret, raise, collectResources.
  cbn [fst snd]. destruct (goto page url) as [nav page1]. cbn [fst snd] in *.
  subst nav. cbn. rewrite E. cbn.
  fold resources. subst run.
  destruct (inlineValidation goto page1 resources) as [broken page2]. cbn.
  destruct broken as [|b rest]; cbn.
  - reflexivity.
  - rewrite <- !app_assoc. reflexivity.
Qed.

(** X29. The resource test of the second file, with its inline loop,
    passes on exactly the runs on which the test of the first file
    passes. *)
Theorem inline_test_passes_iff_helper_test_passes (url : string) (page : Page)
    (testInfo : list Attachment) :
  fst (inlineTest url page testInfo) = Returned tt
  <-> fst (resourceTest stringify messageOf goto evaluate url (page, testInfo))
      = Returned tt.
Proof.
  destruct (fst (goto page url)) as [|response] eqn:G.
  { unfold inlineTest, inlineResourceTest, inlineResourceTry, resourceTest, resourceTry.
    unfold tryCatch, andThen, navigate, lift. cbn [fst snd].
    destruct (goto page url) as [nav page1]. cbn in G. subst nav. cbn.
    split; discriminate. }
  destruct (evaluate (snd (goto page url))) as [matched|e] eqn:E.
  - rewrite (inlineTest_collected url page testInfo response matched G E).
    rewrite (ResourceScenarioFacts.resourceTest_collected stringify messageOf goto
               evaluate url page testInfo response matched G E).
    pose proof (ResourceExtras.inline_empty_iff goto (snd (goto page url))
                  (collectFrom matched)) as I.
    destruct (fst (inlineValidation goto (snd (goto page url)) (collectFrom matched)))
      as [|b1 r1],
      (fst (validateResources goto (snd (goto page url)) (collectFrom matched)))
      as [|b2 r2]; cbn; split; intros H; try reflexivity; try discriminate H.
    + destruct I as [I _]. specialize (I eq_refl). discriminate I.
    + destruct I as [_ I]. specialize (I eq_refl). discriminate I.
  - unfold inlineTest, inlineResourceTest, inlineResourceTry, resourceTest, resourceTry.
    unfold tryCatch, andThen, navigate, collect, lift, collectResources.
    cbn [fst snd]. destruct (goto page url) as [nav page1]. cbn in G, E.
    subst nav. cbn. rewrite E. cbn. split; discriminate.
Qed.

(** X30. When the page is loaded and a collected resource is broken, the
    test of the second file attaches the broken resources once, between
    the linked resources and "Validation Error". *)
Theorem inline_test_attaches_broken_once (url : string) (page : Page)
    (testInfo : list Attachment) (response : option Response.t) (matched : list Element) :
  fst (goto page url) = Resolves response ->
  evaluate (snd (goto page url)) = Normal matched ->
  let resources := collectFrom matched in
  let run := inlineValidation goto (snd (goto page url)) resources in
  fst run <> [] ->
  inlineTest url page testInfo
  = (Raised ExpectationFailed,
     (snd run,
      testInfo ++ [ linkedAttachment stringify resources;
                    brokenAttachment stringify (fst run);
                    errorAttachment messageOf ExpectationFailed ])).
Proof.
  intros G E resources run N.
  rewrite (inlineTest_collected url page testInfo response matched G E).
  fold resources. fold run. destruct (fst run); [contradiction | reflexivity].
Qed.

End Test.

Lemma inline_test_attaches_broken_once_witness :
  map label
    (snd (snd (inlineResourceTest sampleStringifyValue sampleMessage (styledPage 404)
                 oneStylesheet "https://example.test/" (tt, []))))
  = ["Linked Resources"; "Broken Resources"; "Validation Error"].
Proof.
  rewrite (inline_test_attaches_broken_once sampleStringifyValue sampleMessage
             (styledPage 404) oneStylesheet "https://example.test/" tt []
             (Some {| Response.status := 200 |})
             [{| src := None; href := Some "https://example.test/a.css" |}]
             eq_refl eq_refl).
  - reflexivity.
  - discriminate.
Defined.

End InlineResourceFacts.
